(** * GCP Guardian dashboard: the client-side synchronization engine

    A shallow embedding of [static/js/app.js] (the multi-server dashboard):
    [fetchWithAuth], [renderDashboardData], [updateDashboardForServer],
    [updateActionLogsForServer], [handleVmAction] and the timer callback
    that [handleVmAction] registers.  The particle background, the
    construction of the page in [initialize] (but for the cards it
    mounts), the logout button and the two periodic timers are not part
    of it.

    The page state the script reads and writes (localStorage, the window
    location, the DOM elements it looks up by id, the console, the alert
    dialogs, the requests handed to [fetch], the pending timers and the
    clock) is one record, [World]; every function of the script is a
    state-and-exception computation over it.  An [async] function runs
    until it waits for the network; what the network answers, and what
    happened to the page in the meantime, is given to its continuation. *)

From Stdlib Require Import Ascii String.
From stdpp Require Import gmap strings list pretty.

Open Scope Z_scope.

Set Warnings "-register-all".

(** ** JavaScript values *)

(** The values the script handles: what [JSON.parse] returns, plus
    [undefined] (the result of reading a property that is not there).
    Numbers are integers: the only arithmetic of the script is on
    [Date.getTime()] milliseconds. *)
Inductive JSValue : Type :=
  | JUndefined
  | JNull
  | JBool (b : bool)
  | JNum (n : Z)
  | JStr (s : string)
  | JArr (items : list JSValue)
  | JObj (fields : list (string * JSValue)).

(** What a [throw] carries.  [Err msg] is [new Error(msg)]; the other
    three are the exceptions of the host: a [TypeError] (property of
    [null], call of a non-function), the [SyntaxError] of [JSON.parse]
    and [Response.json], and the rejection of [fetch] on a network
    failure. *)
Inductive JSError : Type :=
  | Err (msg : string)
  | TypeErr
  | SyntaxErr
  | NetworkErr.

Inductive Completion (A : Type) : Type :=
  | Normal (a : A)
  | Throw (e : JSError).
Arguments Normal {A} a.
Arguments Throw {A} e.

(** ToBoolean. *)
Definition truthy (v : JSValue) : bool :=
  match v with
  | JUndefined | JNull => false
  | JBool b => b
  | JNum n => negb (n =? 0)
  | JStr s => negb (String.eqb s EmptyString)
  | JArr _ | JObj _ => true
  end.

(** ToString, as a template literal applies it. *)
Fixpoint ToString (v : JSValue) : string :=
  match v with
  | JUndefined => "undefined"
  | JNull => "null"
  | JBool true => "true"
  | JBool false => "false"
  | JNum n => pretty n
  | JStr s => s
  | JArr items =>
      (fix join (l : list JSValue) : string :=
         match l with
         | [] => EmptyString
         | x :: rest =>
             let sx := match x with
                       | JUndefined | JNull => EmptyString
                       | _ => ToString x
                       end in
             match rest with
             | [] => sx
             | _ :: _ => sx +:+ "," +:+ join rest
             end
         end) items
  | JObj _ => "[object Object]"
  end.

(** [a || b]. *)
Definition js_or (a b : JSValue) : JSValue := if truthy a then a else b.

Fixpoint assoc (k : string) (fields : list (string * JSValue)) : option JSValue :=
  match fields with
  | [] => None
  | (k', v) :: rest => if String.eqb k k' then Some v else assoc k rest
  end.

(** [v.p] for the property names the script reads ([data], [timestamp],
    [detail], [length], [instance_name], ...): a [TypeError] on [null]
    and [undefined], the own field of an object, [length] of an array or
    of a string, and [undefined] everywhere else. *)
Definition get_prop (v : JSValue) (p : string) : Completion JSValue :=
  match v with
  | JUndefined | JNull => Throw TypeErr
  | JObj fields => Normal (default JUndefined (assoc p fields))
  | JArr items =>
      Normal (if String.eqb p "length" then JNum (Z.of_nat (length items))
              else JUndefined)
  | JStr s =>
      Normal (if String.eqb p "length" then JNum (Z.of_nat (String.length s))
              else JUndefined)
  | JBool _ | JNum _ => Normal JUndefined
  end.

Definition lower_ascii (c : ascii) : ascii :=
  let n := nat_of_ascii c in
  if ((65 <=? n) && (n <=? 90))%nat then ascii_of_nat (n + 32) else c.

Fixpoint lower_string (s : string) : string :=
  match s with
  | EmptyString => EmptyString
  | String c rest => String (lower_ascii c) (lower_string rest)
  end.

(** [v.toLowerCase()]: only a string has the method. *)
Definition toLowerCase (v : JSValue) : Completion string :=
  match v with
  | JStr s => Normal (lower_string s)
  | _ => Throw TypeErr
  end.

(** [v.toFixed(2)]: only a number has the method. *)
Definition toFixed2 (v : JSValue) : Completion string :=
  match v with
  | JNum n => Normal (pretty n +:+ ".00")
  | _ => Throw TypeErr
  end.

(** The conversion of a value assigned to [textContent], a nullable
    DOMString: [null] and [undefined] give the empty string. *)
Definition to_DOMString (v : JSValue) : string :=
  match v with
  | JUndefined | JNull => EmptyString
  | _ => ToString v
  end.

(** ** The page state *)

Record Server := { id : string; name : string }.

Record Element := {
  textContent : string;
  classList : list string;
  style_width : string;
  children : list string   (* the text of each child [<li>] / [<p>] *)
}.

Record Request := {
  url : string;
  method : string;
  headers : list (string * string)
}.

(** The [options] argument of [fetchWithAuth]. *)
Record FetchOptions := {
  opt_method : option string;
  opt_headers : list (string * string)
}.

Definition no_options : FetchOptions :=
  {| opt_method := None; opt_headers := [] |}.

Record Response := {
  status : Z;
  statusText : string;
  body : string
}.

(** [response.ok]: the status is in the range 200-299. *)
Definition ok (r : Response) : bool := (200 <=? status r) && (status r <=? 299).

(** How one call of [fetch] settles: the promise rejects (network
    failure) or resolves with a response. *)
Inductive FetchOutcome : Type :=
  | NetworkFailure
  | Responded (r : Response).

(** The callback of the one [setTimeout] of the script (line 224): the
    closure captures the server. *)
Inductive Task : Type :=
  | DelayedResync (server : Server).

Record Timer := { due : Z; callback : Task }.

Record World := {
  localStorage : gmap string string;
  location_href : string;
  document : gmap string Element;
  console_errors : list (string * JSError);
  alerts : list string;
  requests : list Request;
  timers : list Timer;
  clock : Z
}.

Definition set_localStorage (f : gmap string string → gmap string string) (w : World) : World :=
  {| localStorage := f (localStorage w); location_href := location_href w;
     document := document w; console_errors := console_errors w;
     alerts := alerts w; requests := requests w; timers := timers w;
     clock := clock w |}.

Definition set_location_href (h : string) (w : World) : World :=
  {| localStorage := localStorage w; location_href := h;
     document := document w; console_errors := console_errors w;
     alerts := alerts w; requests := requests w; timers := timers w;
     clock := clock w |}.

Definition set_document (f : gmap string Element → gmap string Element) (w : World) : World :=
  {| localStorage := localStorage w; location_href := location_href w;
     document := f (document w); console_errors := console_errors w;
     alerts := alerts w; requests := requests w; timers := timers w;
     clock := clock w |}.

Definition set_console_errors (f : list (string * JSError) → list (string * JSError)) (w : World) : World :=
  {| localStorage := localStorage w; location_href := location_href w;
     document := document w; console_errors := f (console_errors w);
     alerts := alerts w; requests := requests w; timers := timers w;
     clock := clock w |}.

Definition set_alerts (f : list string → list string) (w : World) : World :=
  {| localStorage := localStorage w; location_href := location_href w;
     document := document w; console_errors := console_errors w;
     alerts := f (alerts w); requests := requests w; timers := timers w;
     clock := clock w |}.

Definition set_requests (f : list Request → list Request) (w : World) : World :=
  {| localStorage := localStorage w; location_href := location_href w;
     document := document w; console_errors := console_errors w;
     alerts := alerts w; requests := f (requests w); timers := timers w;
     clock := clock w |}.

Definition set_timers (f : list Timer → list Timer) (w : World) : World :=
  {| localStorage := localStorage w; location_href := location_href w;
     document := document w; console_errors := console_errors w;
     alerts := alerts w; requests := requests w; timers := f (timers w);
     clock := clock w |}.

Definition set_clock (f : Z → Z) (w : World) : World :=
  {| localStorage := localStorage w; location_href := location_href w;
     document := document w; console_errors := console_errors w;
     alerts := alerts w; requests := requests w; timers := timers w;
     clock := f (clock w) |}.

(** ** Computations of the script *)

(** A computation runs until it is done, or until it waits for the answer
    to a [fetch] it has sent: the script is single-threaded and gives up
    control only there.  The continuation receives the answer and the
    page as it is when the answer arrives, which other callbacks and the
    passing of time may have changed. *)
Inductive Res (A : Type) : Type :=
  | Done (c : Completion A) (w : World)
  | Suspend (w : World) (k : FetchOutcome → World → Res A).
Arguments Done {A} c w.
Arguments Suspend {A} w k.

Definition Js (A : Type) : Type := World → Res A.

Definition ret {A} (a : A) : Js A := λ w, Done (Normal a) w.

Definition throw {A} (e : JSError) : Js A := λ w, Done (Throw e) w.

Fixpoint bind_res {A B} (r : Res A) (k : A → Js B) : Res B :=
  match r with
  | Done (Normal a) w => k a w
  | Done (Throw e) w => Done (Throw e) w
  | Suspend w c => Suspend w (λ o w', bind_res (c o w') k)
  end.

Definition bind {A B} (m : Js A) (k : A → Js B) : Js B :=
  λ w, bind_res (m w) k.

Fixpoint catch_res {A} (r : Res A) (h : JSError → Js A) : Res A :=
  match r with
  | Done (Normal a) w => Done (Normal a) w
  | Done (Throw e) w => h e w
  | Suspend w c => Suspend w (λ o w', catch_res (c o w') h)
  end.

(** [try { m } catch (error) { h error }]. *)
Definition try_catch {A} (m : Js A) (h : JSError → Js A) : Js A :=
  λ w, catch_res (m w) h.

(** A pure step that may throw. *)
Definition lift {A} (c : Completion A) : Js A := λ w, Done c w.

Notation "'let!' x ':=' m 'in' k" := (bind m (λ x, k))
  (at level 10, x name, m at level 100, k at level 200).
Notation "m ';;;' k" := (bind m (λ _, k))
  (at level 100, k at level 200, right associativity).

(** The page when the computation hands back control: at its end, or at
    its first wait. *)
Definition world_of {A} (r : Res A) : World :=
  match r with
  | Done _ w => w
  | Suspend w _ => w
  end.

(** Whether the computation is waiting for the network. *)
Definition waiting {A} (r : Res A) : bool :=
  match r with
  | Done _ _ => false
  | Suspend _ _ => true
  end.

(** The environment of a run: at each wait it sees the page (the request
    is the last of [requests]) and gives the answer of the network and the
    page at the time of the answer. *)
Definition Env : Type := World → FetchOutcome * World.

(** A computation run to its end in an environment. *)
Fixpoint complete {A} (r : Res A) (env : Env) : Completion A * World :=
  match r with
  | Done c w => (c, w)
  | Suspend w k => let '(o, w') := env w in complete (k o w') env
  end.

(** The environment in which nothing happens during a wait but the
    passing of [elapsed] milliseconds. *)
Definition quiet (o : FetchOutcome) (elapsed : Z) : Env :=
  λ w, (o, set_clock (λ t, t + elapsed) w).

(** *** The host interface *)

Definition localStorage_getItem (key : string) : Js (option string) :=
  λ w, Done (Normal (localStorage w !! key)) w.

Definition localStorage_setItem (key value : string) : Js unit :=
  λ w, Done (Normal ()) (set_localStorage (insert key value) w).

Definition localStorage_removeItem (key : string) : Js unit :=
  λ w, Done (Normal ()) (set_localStorage (delete key) w).

Definition assign_location (h : string) : Js unit :=
  λ w, Done (Normal ()) (set_location_href h w).

(** [new Date().getTime()]. *)
Definition Date_getTime : Js Z := λ w, Done (Normal (clock w)) w.

Definition console_error (label : string) (e : JSError) : Js unit :=
  λ w, Done (Normal ()) (set_console_errors (λ l, l ++ [(label, e)]) w).

(** [alert(msg)]; the time the dialog stays open is not counted. *)
Definition alert (msg : string) : Js unit :=
  λ w, Done (Normal ()) (set_alerts (λ l, l ++ [msg]) w).

(** [setTimeout(cb, delay)]: the callback becomes due [delay]
    milliseconds after the call. *)
Definition setTimeout (cb : Task) (delay : Z) : Js unit :=
  λ w, Done (Normal ())
         (set_timers (λ l, l ++ [{| due := clock w + delay; callback := cb |}]) w).

Definition send (req : Request) (w : World) : World :=
  set_requests (λ l, l ++ [req]) w.

(** [await fetch(url, init)]: the request leaves and the computation
    waits for the promise to settle. *)
Definition fetch (req : Request) : Js Response :=
  λ w, Suspend (send req w)
         (λ o w', match o with
                  | NetworkFailure => Done (Throw NetworkErr) w'
                  | Responded r => Done (Normal r) w'
                  end).

(** The stored session token: [!currentToken] holds for a missing item
    and for the empty string. *)
Definition session (w : World) : option string :=
  match localStorage w !! "accessToken" with
  | Some (String c s) => Some (String c s)
  | _ => None
  end.

(** [document.getElementById(id).<property> = ...]: a [TypeError] when no
    element has the id. *)
Definition update_element (elem_id : string) (f : Element → Element) : Js unit :=
  λ w, match document w !! elem_id with
       | None => Done (Throw TypeErr) w
       | Some e => Done (Normal ()) (set_document (insert elem_id (f e)) w)
       end.

Definition with_textContent (s : string) (e : Element) : Element :=
  {| textContent := s; classList := classList e;
     style_width := style_width e; children := children e |}.

Definition with_className (cls : list string) (e : Element) : Element :=
  {| textContent := textContent e; classList := cls;
     style_width := style_width e; children := children e |}.

Definition classList_add (c : string) (e : Element) : Element :=
  with_className
    (if existsb (String.eqb c) (classList e) then classList e
     else classList e ++ [c]) e.

Definition with_style_width (s : string) (e : Element) : Element :=
  {| textContent := textContent e; classList := classList e;
     style_width := s; children := children e |}.

Definition with_children (l : list string) (e : Element) : Element :=
  {| textContent := textContent e; classList := classList e;
     style_width := style_width e; children := l |}.

Definition appendChild (text : string) (e : Element) : Element :=
  with_children (children e ++ [text]) e.

(** ** The cards of the page *)

Definition blank (text : string) (cls : list string) : Element :=
  {| textContent := text; classList := cls; style_width := EmptyString;
     children := [] |}.

(** Lines 119-159: the elements of a card that carry an id. *)
Definition createServerCard (server : Server) : list (string * Element) :=
  [ ("server-card-" +:+ id server, blank EmptyString ["server-card-wrapper"]);
    ("vm-name-" +:+ id server, blank "Loading..." []);
    ("vm-status-" +:+ id server, blank "Loading..." ["status-badge"]);
    ("startButton-" +:+ id server, blank "Start VM" ["action-button"]);
    ("shutdownButton-" +:+ id server, blank "Shutdown VM" ["action-button"]);
    ("progress-bar-" +:+ id server, blank EmptyString ["progress-bar"]);
    ("traffic-details-" +:+ id server, blank "Loading..." []);
    ("refreshButton-" +:+ id server, blank "Refresh Data" ["action-button"]);
    ("action-logs-" +:+ id server,
      with_children ["Loading logs..."] (blank EmptyString [])) ].

(** Lines 251-252, [container.appendChild(createServerCard(server))]:
    [getElementById] keeps finding an element that already had the id. *)
Definition mount_card (server : Server) (w : World) : World :=
  set_document (λ doc, doc ∪ list_to_map (createServerCard server)) w.

(** ** A reference host

    An executable instance of the built-ins the script takes from the
    host, for running the script on concrete pages: a JSON codec for the
    values of [JSValue] (integers for numbers; the escapes of a string are
    those of the quote and the backslash), the decimal integers for
    ToNumber on a string, and ToString for the rendering of a date. *)
Module RefHost.

Definition dquote : ascii := ascii_of_nat 34.
Definition backslash : ascii := ascii_of_nat 92.

Fixpoint escape (s : string) : string :=
  match s with
  | EmptyString => EmptyString
  | String c rest =>
      if Ascii.eqb c dquote || Ascii.eqb c backslash
      then String backslash (String c (escape rest))
      else String c (escape rest)
  end.

Definition quote (s : string) : string :=
  String dquote (escape s +:+ String dquote EmptyString).

(** [JSON.stringify]; a field whose value is [undefined] is left out, an
    [undefined] item of an array is written [null]. *)
Fixpoint JSON_stringify (v : JSValue) : string :=
  match v with
  | JUndefined | JNull => "null"
  | JBool true => "true"
  | JBool false => "false"
  | JNum n => pretty n
  | JStr s => quote s
  | JArr items =>
      "[" +:+
      (fix go (l : list JSValue) : string :=
         match l with
         | [] => EmptyString
         | x :: rest =>
             JSON_stringify x +:+
             match rest with
             | [] => EmptyString
             | _ :: _ => "," +:+ go rest
             end
         end) items +:+ "]"
  | JObj fields =>
      "{" +:+
      (fix go (first : bool) (l : list (string * JSValue)) : string :=
         match l with
         | [] => EmptyString
         | (_, JUndefined) :: rest => go first rest
         | (k, x) :: rest =>
             (if first then EmptyString else ",") +:+
             quote k +:+ ":" +:+ JSON_stringify x +:+ go false rest
         end) true fields +:+ "}"
  end.

Definition is_space (c : ascii) : bool :=
  let n := nat_of_ascii c in
  ((n =? 32) || (n =? 9) || (n =? 10) || (n =? 13))%nat.

Fixpoint skip_ws (s : string) : string :=
  match s with
  | String c rest => if is_space c then skip_ws rest else s
  | EmptyString => s
  end.

Definition digit_of (c : ascii) : option Z :=
  let n := nat_of_ascii c in
  if ((48 <=? n) && (n <=? 57))%nat then Some (Z.of_nat n - 48) else None.

(** The digits at the head of [s], most significant first, on top of [acc]. *)
Fixpoint read_digits (acc : Z) (s : string) : Z * string :=
  match s with
  | String c rest =>
      match digit_of c with
      | Some d => read_digits (10 * acc + d) rest
      | None => (acc, s)
      end
  | EmptyString => (acc, s)
  end.

Definition starts_with_digit (s : string) : bool :=
  match s with
  | String c _ => bool_decide (is_Some (digit_of c))
  | EmptyString => false
  end.

Definition read_int (s : string) : option (Z * string) :=
  match s with
  | String "-" rest =>
      if starts_with_digit rest then
        let '(n, rest') := read_digits 0 rest in Some (- n, rest')
      else None
  | _ =>
      if starts_with_digit s then Some (read_digits 0 s) else None
  end.

(** The characters up to the closing quote, escapes undone. *)
Fixpoint read_string (s : string) : option (string * string) :=
  match s with
  | EmptyString => None
  | String c rest =>
      if Ascii.eqb c dquote then Some (EmptyString, rest)
      else if Ascii.eqb c backslash then
        match rest with
        | String e rest' =>
            if Ascii.eqb e dquote || Ascii.eqb e backslash then
              match read_string rest' with
              | Some (t, r) => Some (String e t, r)
              | None => None
              end
            else None
        | EmptyString => None
        end
      else
        match read_string rest with
        | Some (t, r) => Some (String c t, r)
        | None => None
        end
  end.

Definition read_literal (lit : string) (v : JSValue) (s : string) : option (JSValue * string) :=
  if String.prefix lit s
  then Some (v, String.substring (String.length lit) (String.length s - String.length lit) s)
  else None.

Fixpoint read_value (fuel : nat) (s : string) : option (JSValue * string) :=
  match fuel with
  | O => None
  | S fuel' =>
      match skip_ws s with
      | EmptyString => None
      | String c rest =>
          if Ascii.eqb c dquote then
            match read_string rest with
            | Some (t, r) => Some (JStr t, r)
            | None => None
            end
          else if Ascii.eqb c "[" then
            match skip_ws rest with
            | String "]" r => Some (JArr [], r)
            | _ => read_items fuel' [] rest
            end
          else if Ascii.eqb c "{" then
            match skip_ws rest with
            | String "}" r => Some (JObj [], r)
            | _ => read_members fuel' [] rest
            end
          else if Ascii.eqb c "n" then read_literal "null" JNull (String c rest)
          else if Ascii.eqb c "t" then read_literal "true" (JBool true) (String c rest)
          else if Ascii.eqb c "f" then read_literal "false" (JBool false) (String c rest)
          else
            match read_int (String c rest) with
            | Some (n, r) => Some (JNum n, r)
            | None => None
            end
      end
  end
with read_items (fuel : nat) (acc : list JSValue) (s : string) : option (JSValue * string) :=
  match fuel with
  | O => None
  | S fuel' =>
      match read_value fuel' s with
      | Some (v, r) =>
          match skip_ws r with
          | String "," r' => read_items fuel' (v :: acc) r'
          | String "]" r' => Some (JArr (rev (v :: acc)), r')
          | _ => None
          end
      | None => None
      end
  end
with read_members (fuel : nat) (acc : list (string * JSValue)) (s : string) : option (JSValue * string) :=
  match fuel with
  | O => None
  | S fuel' =>
      match skip_ws s with
      | String c rest =>
          if Ascii.eqb c dquote then
            match read_string rest with
            | Some (k, r) =>
                match skip_ws r with
                | String ":" r' =>
                    match read_value fuel' r' with
                    | Some (v, r'') =>
                        match skip_ws r'' with
                        | String "," r3 => read_members fuel' ((k, v) :: acc) r3
                        | String "}" r3 => Some (JObj (rev ((k, v) :: acc)), r3)
                        | _ => None
                        end
                    | None => None
                    end
                | _ => None
                end
            | None => None
            end
          else None
      | EmptyString => None
      end
  end.

(** [JSON.parse]: one value, and nothing but white space after it. *)
Definition JSON_parse (s : string) : option JSValue :=
  match read_value (2 * String.length s + 2) s with
  | Some (v, rest) =>
      match skip_ws rest with
      | EmptyString => Some v
      | String _ _ => None
      end
  | None => None
  end.

(** ToNumber on a string: the empty string is 0, a decimal integer is
    itself, anything else is [NaN]. *)
Definition StringToNumber (s : string) : option Z :=
  match skip_ws s with
  | EmptyString => Some 0
  | t =>
      match read_int t with
      | Some (n, rest) =>
          match skip_ws rest with
          | EmptyString => Some n
          | String _ _ => None
          end
      | None => None
      end
  end.

Definition Date_toLocaleString (v : JSValue) : string := ToString v.

End RefHost.

(** ** A concrete page

    Two servers with their cards mounted and a session token stored, and
    the answers of the backend used to run the script on it. *)
Module Demo.

Definition alpha : Server := {| id := "a"; name := "alpha" |}.
Definition beta : Server := {| id := "b"; name := "beta" |}.

Definition empty_page : World :=
  {| localStorage := ∅; location_href := "/static/index.html";
     document := ∅; console_errors := []; alerts := [];
     requests := []; timers := []; clock := 0 |}.

(** The page after a login and the mounting of the two cards. *)
Definition page : World :=
  mount_card beta
    (mount_card alpha
       (set_localStorage (insert "accessToken" "tok") empty_page)).

Definition vm_status : JSValue :=
  JObj [("instance_name", JStr "vm-1"); ("status", JStr "RUNNING");
        ("current_traffic_gb", JNum 2); ("traffic_threshold_gb", JNum 100);
        ("traffic_usage_percent", JNum 2)].

Definition status_ok : Response :=
  {| status := 200; statusText := "OK";
     body := RefHost.JSON_stringify vm_status |}.

Definition logs_ok : Response :=
  {| status := 200; statusText := "OK"; body := "[]" |}.

Definition unauthorized : Response :=
  {| status := 401; statusText := "Unauthorized";
     body := RefHost.JSON_stringify (JObj [("detail", JStr "Could not validate credentials")]) |}.

(** The answer to an action the backend has started. *)
Definition accepted : Response :=
  {| status := 200; statusText := "OK";
     body := RefHost.JSON_stringify (JObj [("message", JStr "VM start initiated")]) |}.

(** A failure the backend explains. *)
Definition rejected : Response :=
  {| status := 500; statusText := "Internal Server Error";
     body := RefHost.JSON_stringify (JObj [("detail", JStr "Failed to start VM")]) |}.

(** A failure answered by a proxy: the body is not JSON. *)
Definition bad_gateway : Response :=
  {| status := 502; statusText := "Bad Gateway"; body := "<html>502</html>" |}.

(** A failure whose detail is the empty string. *)
Definition empty_detail : Response :=
  {| status := 500; statusText := "Internal Server Error";
     body := RefHost.JSON_stringify (JObj [("detail", JStr EmptyString)]) |}.

(** A page whose cache holds a record of [beta] written at time 0. *)
Definition page_with_cache : World :=
  set_localStorage
    (insert "dashboardData-b"
       (RefHost.JSON_stringify (JObj [("data", vm_status); ("timestamp", JNum 0)])))
    page.

(** A page whose record of [alpha] is not JSON. *)
Definition page_with_corrupt_cache : World :=
  set_localStorage (insert "dashboardData-a" "{oops") page.

(** The same page more than an hour later: the record is stale. *)
Definition page_with_stale_cache : World :=
  set_clock (λ _, 4000000) page_with_cache.

(** The page after the session token has gone (a 401, or a logout in
    another tab). *)
Definition page_without_session : World :=
  set_localStorage (delete "accessToken") page_with_cache.

(** The servers of the page, as [initialize] stores them. *)
Definition servers : list Server := [alpha; beta].

(** Two entries of the action log of a server. *)
Definition log_entries : list JSValue :=
  [ JObj [("timestamp", JNum 1000); ("action_type", JStr "START");
          ("reason", JStr "manual")];
    JObj [("timestamp", JNum 2000); ("action_type", JStr "SHUTDOWN");
          ("reason", JNull)] ].

Definition logs_two : Response :=
  {| status := 200; statusText := "OK";
     body := RefHost.JSON_stringify (JArr log_entries) |}.

(** A 2xx answer to the request for the logs whose body is not a list. *)
Definition logs_not_a_list : Response :=
  {| status := 200; statusText := "OK";
     body := RefHost.JSON_stringify (JObj [("detail", JStr "no logs")]) |}.

(** A status the backend sends without the traffic figures. *)
Definition vm_status_without_traffic : JSValue :=
  JObj [("instance_name", JStr "vm-1"); ("status", JStr "RUNNING")].

(** A page whose cache holds such a record of [alpha], written at
    time 0. *)
Definition page_with_partial_cache : World :=
  set_localStorage
    (insert "dashboardData-a"
       (RefHost.JSON_stringify
          (JObj [("data", vm_status_without_traffic); ("timestamp", JNum 0)])))
    page.

(** The options of a request that carries a JSON body. *)
Definition json_post : FetchOptions :=
  {| opt_method := Some "POST";
     opt_headers := [("Content-Type", "application/json")] |}.


End Demo.

(** ** The script *)

Section Script.

(** The built-ins of the host the script calls and that are not modelled
    here: [JSON.parse] ([None] is the [SyntaxError]), [JSON.stringify],
    the numeric-literal grammar of ToNumber on a string ([None] is [NaN])
    and [new Date(v).toLocaleString()], which depends on the locale. *)
Variable JSON_parse : string → option JSValue.
Variable JSON_stringify : JSValue → string.
Variable StringToNumber : string → option Z.
Variable Date_toLocaleString : JSValue → string.

(** ToNumber; [None] is [NaN]. *)
Definition ToNumber (v : JSValue) : option Z :=
  match v with
  | JUndefined => None
  | JNull => Some 0
  | JBool b => Some (if b then 1 else 0)
  | JNum n => Some n
  | JStr s => StringToNumber s
  | JArr _ => StringToNumber (ToString v)
  | JObj _ => None
  end.

(** [now - ts < limit]; a comparison with [NaN] is false. *)
Definition age_below (now : Z) (ts : JSValue) (limit : Z) : bool :=
  match ToNumber ts with
  | Some n => now - n <? limit
  | None => false
  end.

(** [JSON.parse(localStorage.getItem(key))]: [getItem] gives [null] for a
    key that is not stored, and [JSON.parse(null)] is [null]. *)
Definition JSON_parse_item (raw : option string) : Completion JSValue :=
  match raw with
  | None => Normal JNull
  | Some s =>
      match JSON_parse s with
      | Some v => Normal v
      | None => Throw SyntaxErr
      end
  end.

(** [await response.json()]: the body has come with the response, and
    reading it is not a wait. *)
Definition Response_json (r : Response) : Js JSValue :=
  match JSON_parse (body r) with
  | Some v => ret v
  | None => throw SyntaxErr
  end.

(** [{ ...options.headers, 'Authorization': value }]: an existing key keeps
    its place and takes the new value, a new key goes last. *)
Fixpoint set_header (k v : string) (hs : list (string * string)) : list (string * string) :=
  match hs with
  | [] => [(k, v)]
  | (k', v') :: rest =>
      if String.eqb k k' then (k, v) :: rest else (k', v') :: set_header k v rest
  end.

Definition login_page : string := "/static/login.html".

(** Lines 109-110: the request [fetch(url, { ...options, headers })] sends,
    [headers] being the headers of [options] with the bearer token. *)
Definition auth_request (u : string) (options : FetchOptions) (token : string) : Request :=
  {| url := u;
     method := default "GET" (opt_method options);
     headers := set_header "Authorization" ("Bearer " +:+ token)
                  (opt_headers options) |}.

(** Lines 103-117. [!currentToken] holds for a missing item and for the
    empty string. *)
Definition fetchWithAuth (u : string) (options : FetchOptions) : Js Response :=
  let! currentToken := localStorage_getItem "accessToken" in
  match currentToken with
  | None | Some EmptyString =>
      assign_location login_page ;;;
      throw (Err "No token found, redirecting to login.")
  | Some currentToken =>
      let! response := fetch (auth_request u options currentToken) in
      if status response =? 401 then
        localStorage_removeItem "accessToken" ;;;
        assign_location login_page ;;;
        throw (Err "Unauthorized")
      else ret response
  end.

(** Lines 111-116 on their own: what [fetchWithAuth] does with the
    answer of the network. *)
Definition after_fetch (o : FetchOutcome) (w : World) : Res Response :=
  match o with
  | NetworkFailure => Done (Throw NetworkErr) w
  | Responded r =>
      if status r =? 401 then
        Done (Throw (Err "Unauthorized"))
             (set_location_href login_page
                (set_localStorage (delete "accessToken") w))
      else Done (Normal r) w
  end.

(** A fetch fails: the network fails, or the response is not a 2xx. *)
Definition failed (o : FetchOutcome) : bool :=
  match o with
  | NetworkFailure => true
  | Responded r => negb (ok r)
  end.

(** Lines 161-172. *)
Definition renderDashboardData (server : Server) (data : JSValue) : Js unit :=
  let! instance_name := lift (get_prop data "instance_name") in
  update_element ("vm-name-" +:+ id server)
    (with_textContent (to_DOMString instance_name)) ;;;
  let statusBadge := "vm-status-" +:+ id server in
  let! st := lift (get_prop data "status") in
  update_element statusBadge (with_textContent (to_DOMString st)) ;;;
  update_element statusBadge (with_className ["status-badge"]) ;;;
  let! lower := lift (toLowerCase st) in
  (if String.eqb lower "running" then
     update_element statusBadge (classList_add "running")
   else if String.eqb lower "terminated" then
     update_element statusBadge (classList_add "terminated")
   else update_element statusBadge (classList_add "loading")) ;;;
  let! percent := lift (get_prop data "traffic_usage_percent") in
  update_element ("progress-bar-" +:+ id server)
    (with_style_width (ToString percent +:+ "%")) ;;;
  let! current := lift (get_prop data "current_traffic_gb") in
  let! fixed := lift (toFixed2 current) in
  let! threshold := lift (get_prop data "traffic_threshold_gb") in
  update_element ("traffic-details-" +:+ id server)
    (with_textContent
       (fixed +:+ " GB / " +:+ ToString threshold +:+ " GB ("
        +:+ ToString percent +:+ "%)")).

Definition cacheKey (server : Server) : string := "dashboardData-" +:+ id server.

Definition status_url (server : Server) : string :=
  "/api/v1/servers/" +:+ id server +:+ "/status".

(** [{ data: data, timestamp: now }]. *)
Definition cache_record (data : JSValue) (now : Z) : JSValue :=
  JObj [("data", data); ("timestamp", JNum now)].

(** [!force && cachedData && (now - cachedData.timestamp < 3600000)]. *)
Definition cache_hit (force : bool) (cachedData : JSValue) (now : Z) : bool :=
  negb force && truthy cachedData &&
  match get_prop cachedData "timestamp" with
  | Normal ts => age_below now ts 3600000
  | Throw _ => false
  end.

(** Lines 186-189: what the [try] block does with the response, [now]
    being the time read at line 177. *)
Definition store_status (server : Server) (now : Z) (response : Response) : Js unit :=
  if negb (ok response) then
    throw (Err ("Failed to fetch status: " +:+ statusText response))
  else
    let! data := Response_json response in
    renderDashboardData server data ;;;
    localStorage_setItem (cacheKey server)
      (JSON_stringify (cache_record data now)).

(** Lines 190-193: the [catch] block. *)
Definition on_status_error (server : Server) (error : JSError) : Js unit :=
  console_error ("Error updating dashboard for " +:+ id server +:+ ":") error ;;;
  update_element ("traffic-details-" +:+ id server)
    (with_textContent "Error loading data.").

(** Lines 174-194. *)
Definition updateDashboardForServer (server : Server) (force : bool) : Js unit :=
  let! raw := localStorage_getItem (cacheKey server) in
  let! cachedData := lift (JSON_parse_item raw) in
  let! now := Date_getTime in
  if cache_hit force cachedData now then
    let! data := lift (get_prop cachedData "data") in
    renderDashboardData server data
  else
    try_catch
      (let! response := fetchWithAuth (status_url server) no_options in
       store_status server now response)
      (on_status_error server).

Definition logs_url (server : Server) : string :=
  "/api/v1/logs/actions?server_id=" +:+ id server +:+ "&limit=10".

(** The body of [logs.forEach(log => ...)], lines 207-212. *)
Definition render_log (logsList : string) (log : JSValue) : Js unit :=
  let! ts := lift (get_prop log "timestamp") in
  let timestamp := Date_toLocaleString ts in
  let! action_type := lift (get_prop log "action_type") in
  let! reason := lift (get_prop log "reason") in
  update_element logsList
    (appendChild ("[" +:+ timestamp +:+ "] " +:+ ToString action_type +:+ ": "
                  +:+ ToString (js_or reason (JStr EmptyString)))).

Fixpoint for_each {A} (f : A → Js unit) (l : list A) : Js unit :=
  match l with
  | [] => ret ()
  | x :: rest => f x ;;; for_each f rest
  end.

(** [logs.forEach(f)]: only an array has the method. *)
Definition forEach (logs : JSValue) (f : JSValue → Js unit) : Js unit :=
  match logs with
  | JArr items => for_each f items
  | _ => throw TypeErr
  end.

(** Lines 199-212: what the [try] block does with the response. *)
Definition show_logs (server : Server) (response : Response) : Js unit :=
  if negb (ok response) then throw (Err "Failed to fetch logs")
  else
    let! logs := Response_json response in
    let logsList := "action-logs-" +:+ id server in
    update_element logsList (with_children []) ;;;
    let! len := lift (get_prop logs "length") in
    match len with
    | JNum 0 =>
        update_element logsList
          (with_children ["No actions logged for this server."])
    | _ => forEach logs (render_log logsList)
    end.

(** Lines 213-215: the [catch] block. *)
Definition on_logs_error (server : Server) (error : JSError) : Js unit :=
  console_error ("Error updating action logs for " +:+ id server +:+ ":") error.

(** Lines 196-216. *)
Definition updateActionLogsForServer (server : Server) : Js unit :=
  try_catch
    (let! response := fetchWithAuth (logs_url server) no_options in
     show_logs server response)
    (on_logs_error server).

Definition action_url (server : Server) (action : string) : string :=
  "/api/v1/servers/" +:+ id server +:+ "/" +:+ action.

Definition post : FetchOptions := {| opt_method := Some "POST"; opt_headers := [] |}.

(** Lines 222-231: what the [try] block does with the response. *)
Definition after_action (server : Server) (action : string) (response : Response) : Js unit :=
  if ok response then
    alert ("VM " +:+ action +:+ " initiated for server " +:+ name server +:+ ".") ;;;
    setTimeout (DelayedResync server) 3000
  else
    let! error := Response_json response in
    let! detail := lift (get_prop error "detail") in
    alert ("Error: " +:+ ToString (js_or detail (JStr "Failed to perform action"))).

(** Lines 232-234: the [catch] block. *)
Definition on_action_error (server : Server) (action : string) (error : JSError) : Js unit :=
  console_error ("Error during " +:+ action +:+ " for " +:+ id server +:+ ":") error.

(** Lines 218-235.  [confirmed] is what the user answers to the
    [confirm(...)] dialog of line 219. *)
Definition handleVmAction (server : Server) (action : string) (confirmed : bool) : Js unit :=
  if negb confirmed then ret ()
  else
    try_catch
      (let! response := fetchWithAuth (action_url server action) post in
       after_action server action response)
      (on_action_error server action).

(** The callback of lines 224-227.  Neither call is awaited: the first
    runs until it waits for the network (or ends), then the second starts
    on the page the first has left; a rejection of either promise reaches
    nobody.  The result is the two computations, each done or waiting. *)
Definition run_callback (t : Task) (w : World) : Res unit * Res unit :=
  match t with
  | DelayedResync server =>
      let first := updateDashboardForServer server true w in
      let second := updateActionLogsForServer server (world_of first) in
      (first, second)
  end.

(** The host runs the [i]-th pending timer: never before it is due. *)
Definition fire_timer (i : nat) (w : World) : option (Res unit * Res unit) :=
  match timers w !! i with
  | Some t =>
      if due t <=? clock w then
        Some (run_callback (callback t) (set_timers (delete i) w))
      else None
  | None => None
  end.

(** ** Notions used in the statements *)

(** The computation ends without waiting, in a completion and a page that
    satisfy [P]. *)
Definition settles {A} (r : Res A) (P : Completion A → World → Prop) : Prop :=
  match r with
  | Done c w => P c w
  | Suspend _ _ => False
  end.

(** Two computations end without waiting, in the same completion and
    with the same document. *)
Definition alike {A} (r r' : Res A) : Prop :=
  settles r (λ c w, settles r' (λ c' w', c' = c ∧ document w' = document w)).

(** [w'] is [w] but for the elements of the document. *)
Definition only_document (w w' : World) : Prop :=
  ∃ doc, w' = set_document (λ _, doc) w.

(** A computation that never waits, touches nothing but the document,
    and whose completion and document depend on nothing but the document
    it starts from. *)
Definition dom_only {A} (m : Js A) : Prop :=
  ∀ w, ∃ c doc, ∀ w',
    document w' = document w → m w' = Done c (set_document (λ _, doc) w').

(** The request of a status synchronization, of an action-log
    synchronization and of an action. *)
Definition status_request (server : Server) (token : string) : Request :=
  auth_request (status_url server) no_options token.

Definition logs_request (server : Server) (token : string) : Request :=
  auth_request (logs_url server) no_options token.

Definition action_request (server : Server) (action token : string) : Request :=
  auth_request (action_url server action) post token.

(** The value the cache holds for a server: [null] when nothing is
    stored, a [SyntaxError] when the record is not JSON. *)
Definition cached (server : Server) (w : World) : Completion JSValue :=
  JSON_parse_item (localStorage w !! cacheKey server).

(** ** The rest of the page script *)

(** [localStorage.clear()]. *)
Definition localStorage_clear : Js unit :=
  λ w, Done (Normal ()) (set_localStorage (λ _, ∅) w).

(** Lines 273-276: the click on the logout button. *)
Definition logout : Js unit :=
  localStorage_clear ;;; assign_location login_page.

(** [calls.forEach(call => call())] for calls of [async] functions that
    nobody awaits: each runs until it ends or waits for the network, the
    next one starts on the page it has left, and a rejection reaches
    nobody.  The result is the computations, each done or waiting, and
    the page at the end of the loop. *)
Fixpoint start_all (calls : list (Js unit)) (w : World) : list (Res unit) * World :=
  match calls with
  | [] => ([], w)
  | call :: rest =>
      let r := call w in
      let '(rs, w') := start_all rest (world_of r) in
      (r :: rs, w')
  end.

(** Lines 282-287: the callback of the hourly timer, [servers] being the
    list [initialize] has stored.  (Its [console.log] is not an error and
    leaves no trace in [console_errors].) *)
Definition hourly_refresh (servers : list Server) (w : World) : list (Res unit) * World :=
  start_all (map (λ server, updateDashboardForServer server false) servers) w.

(** Lines 289-293: the callback of the five-minute timer. *)
Definition logs_refresh (servers : list Server) (w : World) : list (Res unit) * World :=
  start_all (map updateActionLogsForServer servers) w.

(** Lines 258-261: the click on the refresh button of a card.  Neither
    call is awaited: the second starts on the page the first has left. *)
Definition refresh_click (server : Server) (w : World) : Res unit * Res unit :=
  let first := updateDashboardForServer server true w in
  let second := updateActionLogsForServer server (world_of first) in
  (first, second).


(** ** More notions used in the statements *)

(** The ids of the elements [renderDashboardData] and the [catch] block
    of [updateDashboardForServer] write to. *)
Definition status_ids (server : Server) : list string :=
  [ "vm-name-" +:+ id server; "vm-status-" +:+ id server;
    "progress-bar-" +:+ id server; "traffic-details-" +:+ id server ].

(** The computation ends without waiting, on a page related by [R] to the
    one it started from. *)
Definition keeps {A} (R : World → World → Prop) (m : Js A) : Prop :=
  ∀ w, settles (m w) (λ _ w', R w w').

(** What a status synchronization of [server] leaves alone once it has
    sent its request: the elements other than its four, the items of
    localStorage other than its record and the token, the alerts, the
    timers and the requests. *)
Definition status_frame (server : Server) (w w' : World) : Prop :=
  (∀ key, key ∉ status_ids server → document w' !! key = document w !! key) ∧
  (∀ key, key ≠ cacheKey server → key ≠ "accessToken" →
          localStorage w' !! key = localStorage w !! key) ∧
  alerts w' = alerts w ∧ timers w' = timers w ∧ requests w' = requests w.

(** The same for an action-log synchronization: its element is the list
    of the logs, and it has no record. *)
Definition logs_frame (server : Server) (w w' : World) : Prop :=
  (∀ key, key ≠ "action-logs-" +:+ id server →
          document w' !! key = document w !! key) ∧
  (∀ key, key ≠ "accessToken" →
          localStorage w' !! key = localStorage w !! key) ∧
  alerts w' = alerts w ∧ timers w' = timers w ∧ requests w' = requests w.

(** The same for an action: it writes to no element and to no record. *)
Definition action_frame (w w' : World) : Prop :=
  document w' = document w ∧
  (∀ key, key ≠ "accessToken" →
          localStorage w' !! key = localStorage w !! key) ∧
  requests w' = requests w.

(** The four elements a status synchronization writes to are on the
    page. *)
Definition card_mounted (server : Server) (w : World) : Prop :=
  ∀ key, key ∈ status_ids server → is_Some (document w !! key).

(** The status is a string and the current traffic a number: what
    [renderDashboardData] calls a method on. *)
Definition renderable (data : JSValue) : bool :=
  match get_prop data "status", get_prop data "current_traffic_gb" with
  | Normal (JStr _), Normal (JNum _) => true
  | _, _ => false
  end.

(** The line [render_log] shows for an entry of the action log
    (line 210). *)
Definition log_line (log : JSValue) : string :=
  match get_prop log "timestamp", get_prop log "action_type", get_prop log "reason" with
  | Normal ts, Normal action_type, Normal reason =>
      "[" +:+ Date_toLocaleString ts +:+ "] " +:+ ToString action_type +:+ ": "
      +:+ ToString (js_or reason (JStr EmptyString))
  | _, _, _ => EmptyString
  end.

(** An entry whose properties can be read: anything but [null] and
    [undefined]. *)
Definition defined (v : JSValue) : Prop := v ≠ JUndefined ∧ v ≠ JNull.

(** Whether a non-forced status synchronization finds no fresh record
    for the server: the record is absent or stale.  (A record that is
    not JSON is neither served nor refreshed.) *)
Definition stale (server : Server) (w : World) : bool :=
  match cached server w with
  | Normal v => negb (cache_hit false v (clock w))
  | Throw _ => false
  end.

(** No element leaves the page. *)
Definition elements_stay (w w' : World) : Prop :=
  ∀ key, is_Some (document w !! key) → is_Some (document w' !! key).


(** ** Properties *)

(** *** The session token *)

Lemma session_Some w tok :
  session w = Some tok →
  localStorage w !! "accessToken" = Some tok ∧ tok ≠ EmptyString.
Proof.
  unfold session. destruct (localStorage w !! "accessToken") as [[|c s]|]; [done| |done].
  intros [= <-]. done.
Qed.

Lemma session_after_removeItem w :
  session (set_localStorage (delete "accessToken") w) = None.
Proof. unfold session. simpl. by rewrite lookup_delete_eq. Qed.

(** *** The transport *)

Lemma fetchWithAuth_no_session u options w :
  session w = None →
  fetchWithAuth u options w =
    Done (Throw (Err "No token found, redirecting to login."))
         (set_location_href login_page w).
Proof.
  unfold session, fetchWithAuth, bind, localStorage_getItem. simpl.
  destruct (localStorage w !! "accessToken") as [[|c s]|]; done.
Qed.

Lemma fetchWithAuth_session u options w tok :
  session w = Some tok →
  ∃ k, fetchWithAuth u options w = Suspend (send (auth_request u options tok) w) k
       ∧ ∀ o w', k o w' = after_fetch o w'.
Proof.
  intros [Htok Hne]%session_Some.
  unfold fetchWithAuth, bind, localStorage_getItem. simpl. rewrite Htok.
  destruct tok as [|c s]; [done|]. simpl.
  eexists. split; [reflexivity|].
  intros [|r] w'; simpl; [done|].
  destruct (status r =? 401); done.
Qed.

(** *** Computations that only touch the document *)

Lemma only_document_refl w : only_document w w.
Proof. exists (document w). by destruct w. Qed.

Lemma only_document_trans w1 w2 w3 :
  only_document w1 w2 → only_document w2 w3 → only_document w1 w3.
Proof. intros [d1 ->] [d2 ->]. by exists d2. Qed.

Lemma set_document_same w : set_document (λ _, document w) w = w.
Proof. by destruct w. Qed.

Lemma dom_only_lift {A} (c : Completion A) : dom_only (lift c).
Proof.
  intros w. exists c, (document w). intros w' Hdoc. unfold lift.
  by rewrite <- Hdoc, set_document_same.
Qed.

Lemma dom_only_ret {A} (a : A) : dom_only (ret a).
Proof. apply (dom_only_lift (Normal a)). Qed.

Lemma dom_only_throw {A} (e : JSError) : dom_only (@throw A e).
Proof. apply (dom_only_lift (Throw e)). Qed.

Lemma dom_only_update_element i f : dom_only (update_element i f).
Proof.
  intros w. destruct (document w !! i) as [el|] eqn:Hel.
  - exists (Normal ()), (<[i:=f el]> (document w)). intros w' Hdoc.
    unfold update_element, set_document. by rewrite Hdoc, Hel.
  - exists (Throw TypeErr), (document w). intros w' Hdoc.
    unfold update_element. by rewrite Hdoc, Hel, <- Hdoc, set_document_same.
Qed.

Lemma dom_only_bind {A B} (m : Js A) (k : A → Js B) :
  dom_only m → (∀ a, dom_only (k a)) → dom_only (bind m k).
Proof.
  intros Hm Hk w. destruct (Hm w) as ([a|e] & doc & Hrun).
  - destruct (Hk a (set_document (λ _, doc) w)) as (c & doc' & Hnext).
    exists c, doc'. intros w' Hdoc. unfold bind. rewrite (Hrun w' Hdoc). simpl.
    by rewrite (Hnext (set_document (λ _, doc) w')).
  - exists (Throw e), doc. intros w' Hdoc. unfold bind.
    by rewrite (Hrun w' Hdoc).
Qed.

Lemma dom_only_for_each {A} (f : A → Js unit) l :
  (∀ x, dom_only (f x)) → dom_only (for_each f l).
Proof.
  intros Hf. induction l as [|x l IH]; simpl.
  - apply dom_only_ret.
  - apply dom_only_bind; [apply Hf | intros _; apply IH].
Qed.

Create HintDb dom.

#[local] Hint Resolve dom_only_lift dom_only_ret dom_only_throw
  dom_only_update_element : dom.

Ltac dom_steps :=
  repeat first
    [ apply dom_only_bind; [solve [auto with dom] | intros ? ]
    | solve [auto with dom] ].

Lemma dom_only_renderDashboardData server data :
  dom_only (renderDashboardData server data).
Proof.
  unfold renderDashboardData.
  apply dom_only_bind; [auto with dom | intros instance_name].
  apply dom_only_bind; [auto with dom | intros _].
  apply dom_only_bind; [auto with dom | intros st].
  apply dom_only_bind; [auto with dom | intros _].
  apply dom_only_bind; [auto with dom | intros _].
  apply dom_only_bind; [auto with dom | intros lower].
  apply dom_only_bind.
  { destruct (String.eqb lower "running"); [auto with dom|].
    destruct (String.eqb lower "terminated"); auto with dom. }
  intros _. dom_steps.
Qed.

Lemma dom_only_render_log logsList log : dom_only (render_log logsList log).
Proof. unfold render_log. dom_steps. Qed.

(** What a computation that only touches the document leaves alone. *)
Lemma dom_only_frame {A} (m : Js A) w :
  dom_only m →
  ∃ c w', m w = Done c w' ∧ only_document w w'.
Proof.
  intros Hm. destruct (Hm w) as (c & doc & Hrun).
  exists c, (set_document (λ _, doc) w). split; [by apply Hrun|by exists doc].
Qed.

(** On two pages with the same document, it completes alike and leaves
    the same document. *)
Lemma dom_only_same_document {A} (m : Js A) w w' :
  dom_only m →
  document w' = document w →
  ∃ c doc, m w = Done c (set_document (λ _, doc) w) ∧
           m w' = Done c (set_document (λ _, doc) w').
Proof.
  intros Hm Hdoc. destruct (Hm w) as (c & doc & Hrun).
  exists c, doc. split; by apply Hrun.
Qed.

Lemma only_document_fields w w' :
  only_document w w' →
  localStorage w' = localStorage w ∧ location_href w' = location_href w ∧
  console_errors w' = console_errors w ∧ alerts w' = alerts w ∧
  requests w' = requests w ∧ timers w' = timers w ∧ clock w' = clock w.
Proof. by intros [doc ->]. Qed.

(** *** The guarded fetch

    The three asynchronous functions have the shape
    [try { const response = await fetchWithAuth(...); ... } catch ...]. *)

Lemma guarded_fetch_no_session {A} u options (body : Response → Js A) h w :
  session w = None →
  try_catch (let! response := fetchWithAuth u options in body response) h w
  = h (Err "No token found, redirecting to login.") (set_location_href login_page w).
Proof.
  intros Hs. unfold try_catch, bind. by rewrite fetchWithAuth_no_session.
Qed.

Lemma guarded_fetch_session {A} u options (body : Response → Js A) h w tok :
  session w = Some tok →
  ∃ k, try_catch (let! response := fetchWithAuth u options in body response) h w
       = Suspend (send (auth_request u options tok) w) k
     ∧ ∀ o w', k o w' = catch_res (bind_res (after_fetch o w') body) h.
Proof.
  intros Hs. destruct (fetchWithAuth_session u options w tok Hs) as (k & Hf & Hk).
  unfold try_catch, bind. rewrite Hf. simpl.
  eexists. split; [reflexivity|]. intros o w'. cbv beta. by rewrite Hk.
Qed.

(** *** The shape of the three asynchronous functions *)

Lemma cacheKey_not_token server : cacheKey server ≠ "accessToken".
Proof. unfold cacheKey. simpl. discriminate. Qed.

Lemma on_status_error_run server e w :
  on_status_error server e w =
    let w' := set_console_errors
                (λ l, l ++ [("Error updating dashboard for " +:+ id server +:+ ":", e)]) w in
    match document w !! ("traffic-details-" +:+ id server) with
    | None => Done (Throw TypeErr) w'
    | Some el =>
        Done (Normal ())
          (set_document
             (insert ("traffic-details-" +:+ id server)
                (with_textContent "Error loading data." el)) w')
    end.
Proof.
  unfold on_status_error, bind, console_error, update_element. simpl.
  by destruct (document w !! _).
Qed.

Lemma updateDashboardForServer_cases server force w :
  match cached server w with
  | Throw e => updateDashboardForServer server force w = Done (Throw e) w
  | Normal v =>
      updateDashboardForServer server force w =
        if cache_hit force v (clock w) then
          (let! data := lift (get_prop v "data") in
           renderDashboardData server data) w
        else
          try_catch
            (let! response := fetchWithAuth (status_url server) no_options in
             store_status server (clock w) response)
            (on_status_error server) w
  end.
Proof.
  unfold cached, updateDashboardForServer, bind, localStorage_getItem,
    lift, Date_getTime.
  simpl. destruct (JSON_parse_item _) as [v|e]; simpl; [|done].
  by destruct (cache_hit force v (clock w)).
Qed.

Lemma served_from_cache_settles server v :
  dom_only (let! data := lift (get_prop v "data") in renderDashboardData server data).
Proof.
  apply dom_only_bind; [apply dom_only_lift|].
  intros data. apply dom_only_renderDashboardData.
Qed.

(** A status synchronization waits for the network exactly when the
    record of the cache is readable, not served, and a session token is
    stored. *)
Lemma updateDashboardForServer_waiting server force w :
  waiting (updateDashboardForServer server force w) = true →
  ∃ tok v k,
    session w = Some tok ∧ cached server w = Normal v ∧
    cache_hit force v (clock w) = false ∧
    updateDashboardForServer server force w
      = Suspend (send (status_request server tok) w) k ∧
    ∀ o w', k o w' =
      catch_res (bind_res (after_fetch o w') (store_status server (clock w)))
                (on_status_error server).
Proof.
  intros Hw. pose proof (updateDashboardForServer_cases server force w) as Hc.
  destruct (cached server w) as [v|e]; [|by rewrite Hc in Hw].
  destruct (cache_hit force v (clock w)) eqn:Hhit.
  { destruct (dom_only_frame _ w (served_from_cache_settles server v))
      as (c & w' & Heq & _).
    rewrite Hc, Heq in Hw. done. }
  destruct (session w) as [tok|] eqn:Hs.
  - destruct (guarded_fetch_session (status_url server) no_options
                (store_status server (clock w)) (on_status_error server) w tok Hs)
      as (k & Hk1 & Hk2).
    exists tok, v, k. by rewrite Hc.
  - rewrite Hc, guarded_fetch_no_session, on_status_error_run in Hw by done.
    simpl in Hw. by destruct (document w !! _).
Qed.

Lemma updateDashboardForServer_no_session server force w :
  session w = None →
  waiting (updateDashboardForServer server force w) = false.
Proof.
  intros Hs. destruct (waiting _) eqn:Hw; [|done].
  apply updateDashboardForServer_waiting in Hw as (tok & ? & ? & Htok & _).
  congruence.
Qed.

Lemma updateActionLogsForServer_session server w tok :
  session w = Some tok →
  ∃ k, updateActionLogsForServer server w
       = Suspend (send (logs_request server tok) w) k
     ∧ ∀ o w', k o w' =
         catch_res (bind_res (after_fetch o w') (show_logs server))
                   (on_logs_error server).
Proof. apply guarded_fetch_session. Qed.

Lemma updateActionLogsForServer_no_session server w :
  session w = None →
  updateActionLogsForServer server w =
    Done (Normal ())
      (set_console_errors
         (λ l, l ++ [("Error updating action logs for " +:+ id server +:+ ":",
                      Err "No token found, redirecting to login.")])
         (set_location_href login_page w)).
Proof.
  intros Hs. unfold updateActionLogsForServer.
  by rewrite guarded_fetch_no_session.
Qed.

Lemma handleVmAction_session server action w tok :
  session w = Some tok →
  ∃ k, handleVmAction server action true w
       = Suspend (send (action_request server action tok) w) k
     ∧ ∀ o w', k o w' =
         catch_res (bind_res (after_fetch o w') (after_action server action))
                   (on_action_error server action).
Proof. apply guarded_fetch_session. Qed.

Lemma forced_sync_sends server w tok v :
  session w = Some tok →
  cached server w = Normal v →
  waiting (updateDashboardForServer server true w) = true ∧
  world_of (updateDashboardForServer server true w)
    = send (status_request server tok) w.
Proof.
  intros Hs Hv.
  pose proof (updateDashboardForServer_cases server true w) as Hc.
  rewrite Hv in Hc. simpl in Hc.
  destruct (guarded_fetch_session (status_url server) no_options
              (store_status server (clock w)) (on_status_error server) w tok Hs)
    as (k & Hk & _).
  by rewrite Hc, Hk.
Qed.

Lemma complete_Suspend {A} w (k : FetchOutcome → World → Res A) env o w' :
  env w = (o, w') → complete (Suspend w k) env = complete (k o w') env.
Proof. intros H. simpl. by rewrite H. Qed.

(** *** The authenticated transport *)

(** C3. Whenever the transport gets a response whose status is 401, the
    session token is removed, the location is set to the login page and
    the call throws [Error('Unauthorized')]: the response does not reach
    the caller.  A response with any other status is returned as it is,
    on the page as it was when the response arrived. *)
Theorem fetchWithAuth_unauthorized_or_verbatim u options w tok env r w1 :
  session w = Some tok →
  env (send (auth_request u options tok) w) = (Responded r, w1) →
  let '(c, w2) := complete (fetchWithAuth u options w) env in
  (status r = 401 →
     c = Throw (Err "Unauthorized") ∧
     session w2 = None ∧
     location_href w2 = login_page ∧
     w2 = set_location_href login_page
            (set_localStorage (delete "accessToken") w1))
  ∧ (status r ≠ 401 → c = Normal r ∧ w2 = w1).
Proof.
  intros Hs Henv.
  destruct (fetchWithAuth_session u options w tok Hs) as (k & -> & Hk).
  rewrite (complete_Suspend _ _ _ _ _ Henv), Hk. simpl.
  destruct (status r =? 401) eqn:E; simpl.
  - apply Z.eqb_eq in E. split; [|done]. intros _.
    repeat split. unfold session. simpl. by rewrite lookup_delete_eq.
  - apply Z.eqb_neq in E. done.
Qed.

(** *** The action coordinator *)

(** C5. When the user declines the confirmation, [handleVmAction] ends at
    once and leaves the page as it was; so, in any environment, a run
    that has sent a request is a confirmed one.  A confirmed run with a
    session token sends the request of the action. *)
Theorem handleVmAction_confirmation_gate server action w :
  handleVmAction server action false w = Done (Normal ()) w
  ∧ (∀ confirmed env,
       requests (complete (handleVmAction server action confirmed w) env).2
         ≠ requests w →
       confirmed = true)
  ∧ (∀ tok, session w = Some tok →
       waiting (handleVmAction server action true w) = true ∧
       world_of (handleVmAction server action true w)
         = send {| url := "/api/v1/servers/" +:+ id server +:+ "/" +:+ action;
                   method := "POST";
                   headers := [("Authorization", "Bearer " +:+ tok)] |} w).
Proof.
  split; [done|]. split.
  - intros [|] env; [done|]. simpl. done.
  - intros tok Hs.
    by destruct (handleVmAction_session server action w tok Hs) as (k & -> & _).
Qed.

(** C6. When the response of an action is [ok], [handleVmAction] adds
    exactly one timer to the pending ones, due 3000 ms after the time the
    response arrived.  The host fires that timer no earlier than that; the
    callback then starts the forced status synchronization of the server
    and, after it, the synchronization of its action logs, and the timer
    is gone.  With a session token and a readable record, fresh or not,
    the two requests leave: the status one, then the logs one. *)
Theorem successful_action_schedules_one_resync server action w tok env r w1 :
  session w = Some tok →
  env (send (action_request server action tok) w) = (Responded r, w1) →
  ok r = true →
  let w2 := (complete (handleVmAction server action true w) env).2 in
  let resync := {| due := clock w1 + 3000; callback := DelayedResync server |} in
  timers w2 = timers w1 ++ [resync]
  ∧ ∀ i w3 started,
      timers w3 !! i = Some resync →
      fire_timer i w3 = Some started →
      clock w1 + 3000 ≤ clock w3
      ∧ started.1 = updateDashboardForServer server true (set_timers (delete i) w3)
      ∧ started.2 = updateActionLogsForServer server (world_of started.1)
      ∧ timers (world_of started.1) = delete i (timers w3)
      ∧ ∀ tok' v,
          session w3 = Some tok' →
          cached server w3 = Normal v →
          requests (world_of started.2)
            = requests w3 ++ [status_request server tok'; logs_request server tok'].
Proof.
  intros Hs Henv Hok.
  destruct (handleVmAction_session server action w tok Hs) as (k & -> & Hk).
  rewrite (complete_Suspend _ _ _ _ _ Henv), Hk.
  assert (H401 : (status r =? 401) = false).
  { unfold ok in Hok. apply andb_true_iff in Hok as [_ H2].
    apply Z.leb_le in H2. apply Z.eqb_neq. lia. }
  simpl. rewrite H401. simpl. unfold after_action. rewrite Hok. simpl.
  split; [done|].
  intros i w3 started Ht. unfold fire_timer. rewrite Ht. simpl.
  destruct (clock w1 + 3000 <=? clock w3) eqn:Hdue; [|done].
  intros [= <-]. apply Z.leb_le in Hdue. simpl.
  do 3 (split; [done|]).
  assert (Hsent : ∀ tok' v, session w3 = Some tok' → cached server w3 = Normal v →
            world_of (updateDashboardForServer server true (set_timers (delete i) w3))
            = send (status_request server tok') (set_timers (delete i) w3)).
  { intros tok' v Hs3 Hv3.
    by apply (forced_sync_sends server (set_timers (delete i) w3) tok' v). }
  split.
  - pose proof (updateDashboardForServer_cases server true (set_timers (delete i) w3)) as Hc.
    destruct (cached server (set_timers (delete i) w3)) as [v|e] eqn:Hv;
      [|by rewrite Hc].
    simpl in Hc.
    destruct (session (set_timers (delete i) w3)) as [tok'|] eqn:Hs3.
    + by rewrite (Hsent tok' v Hs3 Hv).
    + rewrite Hc, guarded_fetch_no_session, on_status_error_run by done.
      simpl. by destruct (document w3 !! _).
  - intros tok' v Hs3 Hv3. rewrite (Hsent tok' v Hs3 Hv3).
    destruct (updateActionLogsForServer_session server
                (send (status_request server tok') (set_timers (delete i) w3))
                tok' Hs3) as (k' & -> & _).
    simpl. by rewrite <- app_assoc.
Qed.

Lemma ok_false_not_401 r :
  ok r = false → status r ≠ 401 → after_fetch (Responded r) = Done (Normal r).
Proof.
  intros _ Hne. unfold after_fetch.
  by replace (status r =? 401) with false by (symmetry; by apply Z.eqb_neq).
Qed.

(** C7 (as the code has it). When the response of an action is a failure
    other than a 401, no timer is added, whatever the body.  When the body
    is JSON and its [detail] can be read, the user is alerted with
    [Error: ] followed by the detail if it is truthy and by
    [Failed to perform action] if it is not (absent, empty, zero, null or
    false). *)
Theorem failed_action_reports_detail server action w tok env r w1 :
  session w = Some tok →
  env (send (action_request server action tok) w) = (Responded r, w1) →
  ok r = false →
  status r ≠ 401 →
  let w2 := (complete (handleVmAction server action true w) env).2 in
  timers w2 = timers w1
  ∧ ∀ error detail,
      JSON_parse (body r) = Some error →
      get_prop error "detail" = Normal detail →
      alerts w2 = alerts w1 ++
        ["Error: " +:+ (if truthy detail then ToString detail
                        else "Failed to perform action")].
Proof.
  intros Hs Henv Hok H401.
  destruct (handleVmAction_session server action w tok Hs) as (k & -> & Hk).
  rewrite (complete_Suspend _ _ _ _ _ Henv), Hk, ok_false_not_401 by done.
  simpl. unfold after_action. rewrite Hok.
  unfold bind, Response_json, lift, ret, throw, alert.
  destruct (JSON_parse (body r)) as [error|]; simpl.
  - destruct (get_prop error "detail") as [detail|e] eqn:Hd; simpl.
    + split; [done|]. intros ? detail' [= <-] Hd'.
      rewrite Hd in Hd'. injection Hd' as <-.
      unfold js_or. by destruct (truthy detail).
    + split; [done|]. intros ? ? [= <-]. by rewrite Hd.
  - done.
Qed.

(** *** The synchronizer *)

(** C10. When the record stored for a server is not JSON, a status
    synchronization, forced or not, throws the [SyntaxError] of
    [JSON.parse] at once, on a page it has not touched: nothing sent,
    nothing rendered, no look at the clock. *)
Theorem corrupt_cache_record_throws server force w raw :
  localStorage w !! cacheKey server = Some raw →
  JSON_parse raw = None →
  updateDashboardForServer server force w = Done (Throw SyntaxErr) w.
Proof.
  intros Hraw Hparse.
  pose proof (updateDashboardForServer_cases server force w) as Hc.
  unfold cached in Hc. rewrite Hraw in Hc. simpl in Hc. by rewrite Hparse in Hc.
Qed.

(** C9 (as the code has it). With a session token stored and a record of
    the cache that is absent or readable, fresh or not, a forced status
    synchronization sends the status request of the server and waits for
    the answer. *)
Theorem forced_sync_fetches_when_session server w tok v :
  session w = Some tok →
  cached server w = Normal v →
  waiting (updateDashboardForServer server true w) = true
  ∧ world_of (updateDashboardForServer server true w)
      = send {| url := "/api/v1/servers/" +:+ id server +:+ "/status";
                method := "GET";
                headers := [("Authorization", "Bearer " +:+ tok)] |} w.
Proof.
  intros Hs Hv. exact (forced_sync_sends server w tok v Hs Hv).
Qed.

Lemma dom_only_show_logs server response : dom_only (show_logs server response).
Proof.
  unfold show_logs. destruct (negb (ok response)); [auto with dom|].
  apply dom_only_bind.
  { unfold Response_json. destruct (JSON_parse (body response)); auto with dom. }
  intros logs. apply dom_only_bind; [auto with dom | intros _].
  apply dom_only_bind; [auto with dom | intros len].
  assert (Hloop : dom_only (forEach logs
                    (render_log ("action-logs-" +:+ id server)))).
  { unfold forEach. destruct logs; auto with dom.
    apply dom_only_for_each. intros log. apply dom_only_render_log. }
  destruct len as [| | |n| | |]; try exact Hloop.
  destruct n; [auto with dom | exact Hloop | exact Hloop].
Qed.

(** C8 (as the code has it). With a session token stored, every
    action-log synchronization sends one request, for the 10 latest
    entries of the server, and waits for the answer, whatever localStorage
    holds; with no token stored it sends none.  Once answered it sends
    nothing more and leaves every item of localStorage as it is, the
    token apart; and what it shows is the same on any two pages with the
    same document, whatever their localStorage: action logs are never
    written to the cache nor read from it. *)
Theorem action_logs_synchronization_fetches server w :
  (∀ tok, session w = Some tok →
     waiting (updateActionLogsForServer server w) = true ∧
     world_of (updateActionLogsForServer server w)
       = send {| url := "/api/v1/logs/actions?server_id=" +:+ id server +:+ "&limit=10";
                 method := "GET";
                 headers := [("Authorization", "Bearer " +:+ tok)] |} w)
  ∧ (session w = None →
       waiting (updateActionLogsForServer server w) = false ∧
       requests (world_of (updateActionLogsForServer server w)) = requests w)
  ∧ match updateActionLogsForServer server w with
    | Done _ w2 => localStorage w2 = localStorage w
    | Suspend ws k =>
        localStorage ws = localStorage w ∧
        (∀ o w1, settles (k o w1)
                   (λ _ w2, requests w2 = requests w1 ∧
                            ∀ key, key ≠ "accessToken" →
                                   localStorage w2 !! key = localStorage w1 !! key)) ∧
        (∀ o w1 w1', document w1' = document w1 → alike (k o w1) (k o w1'))
    end.
Proof.
  split; [|split].
  - intros tok Hs.
    by destruct (updateActionLogsForServer_session server w tok Hs) as (k & -> & _).
  - intros Hs. by rewrite updateActionLogsForServer_no_session.
  - destruct (session w) as [tok|] eqn:Hs;
      [|by rewrite updateActionLogsForServer_no_session].
    destruct (updateActionLogsForServer_session server w tok Hs) as (k & -> & Hk).
    split; [done|]. split.
    + intros o w1. rewrite Hk.
      destruct o as [|r]; simpl; [done|].
      destruct (status r =? 401); simpl.
      { split; [done|]. intros key Hkey. by rewrite lookup_delete_ne. }
      destruct (dom_only_frame _ w1 (dom_only_show_logs server r))
        as (c & w' & -> & Hdoc).
      apply only_document_fields in Hdoc as (Hls & _ & _ & _ & Hreq & _).
      destruct c as [[]|e]; simpl; rewrite Hls, Hreq; done.
    + intros o w1 w1' Hdoc. rewrite !Hk. unfold alike.
      destruct o as [|r]; simpl; [done|].
      destruct (status r =? 401); simpl; [done|].
      destruct (dom_only_same_document _ w1 w1' (dom_only_show_logs server r) Hdoc)
        as (c & doc & -> & ->).
      by destruct c as [[]|e].
Qed.


Lemma ok_not_401 r : ok r = true → (status r =? 401) = false.
Proof.
  unfold ok. intros [_ H]%andb_true_iff. apply Z.leb_le in H.
  apply Z.eqb_neq. lia.
Qed.

Lemma cache_hit_fresh_record data t now :
  now - t < 3600000 → cache_hit false (cache_record data t) now = true.
Proof.
  intros Hage. unfold cache_hit, cache_record, age_below. simpl.
  by apply Z.ltb_lt.
Qed.

(** C1 (as the code has it). A status synchronization that read the
    clock at [t0], went to the network, got a 2xx response with a JSON
    body and rendered it stores the data under the key of the server with
    the timestamp [t0].  While that record is the one stored (and
    [JSON.parse] gives back what [JSON.stringify] wrote), a non-forced
    synchronization of the same server at a time [t1] with
    [t1 - t0 < 3600000] is the rendering of the stored data and nothing
    else: it does not wait for the network and sends no request. *)
Theorem fresh_record_is_served_without_network server force w0 env r w1 data :
  waiting (updateDashboardForServer server force w0) = true →
  env (world_of (updateDashboardForServer server force w0)) = (Responded r, w1) →
  ok r = true →
  JSON_parse (body r) = Some data →
  (∃ wr, renderDashboardData server data w1 = Done (Normal ()) wr) →
  JSON_parse (JSON_stringify (cache_record data (clock w0)))
    = Some (cache_record data (clock w0)) →
  let '(c, w2) := complete (updateDashboardForServer server force w0) env in
  c = Normal ()
  ∧ localStorage w2 !! cacheKey server
      = Some (JSON_stringify (cache_record data (clock w0)))
  ∧ ∀ w3,
      localStorage w3 !! cacheKey server = localStorage w2 !! cacheKey server →
      clock w3 - clock w0 < 3600000 →
      updateDashboardForServer server false w3 = renderDashboardData server data w3
      ∧ waiting (updateDashboardForServer server false w3) = false
      ∧ requests (world_of (updateDashboardForServer server false w3)) = requests w3.
Proof.
  intros Hw Henv Hok Hbody [wr Hrender] Hround.
  destruct (updateDashboardForServer_waiting server force w0 Hw)
    as (tok & v & k & Hs & Hv & Hhit & Heq & Hk).
  rewrite Heq in Henv |- *. simpl in Henv.
  rewrite (complete_Suspend _ _ _ _ _ Henv), Hk.
  unfold after_fetch. rewrite (ok_not_401 r Hok). simpl.
  unfold store_status. rewrite Hok. simpl.
  unfold bind at 1, Response_json. rewrite Hbody. simpl.
  unfold bind. rewrite Hrender. simpl.
  split; [done|]. split; [by rewrite lookup_insert_eq|].
  intros w3 Hsame Hage. rewrite lookup_insert_eq in Hsame.
  pose proof (updateDashboardForServer_cases server false w3) as Hc.
  unfold cached in Hc. rewrite Hsame in Hc. simpl in Hc.
  rewrite Hround, (cache_hit_fresh_record _ _ _ Hage) in Hc.
  assert (Hserved : updateDashboardForServer server false w3
                    = renderDashboardData server data w3) by (by rewrite Hc).
  split; [done|]. rewrite Hserved.
  destruct (dom_only_frame _ w3 (dom_only_renderDashboardData server data))
    as (c & w4 & -> & Hdoc).
  simpl. by apply only_document_fields in Hdoc as (_ & _ & _ & _ & -> & _).
Qed.



(** *** What a computation leaves alone *)

Lemma keeps_lift {A} R `{!Reflexive R} (c : Completion A) : keeps R (lift c).
Proof. intros w. simpl. reflexivity. Qed.

Lemma keeps_ret {A} R `{!Reflexive R} (a : A) : keeps R (ret a).
Proof. intros w. simpl. reflexivity. Qed.

Lemma keeps_throw {A} R `{!Reflexive R} (e : JSError) : keeps R (@throw A e).
Proof. intros w. simpl. reflexivity. Qed.

Lemma keeps_bind {A B} R `{!Transitive R} (m : Js A) (k : A → Js B) :
  keeps R m → (∀ a, keeps R (k a)) → keeps R (bind m k).
Proof.
  intros Hm Hk w. unfold bind. specialize (Hm w).
  destruct (m w) as [[a|e] w'|]; simpl in *; [|done|done].
  specialize (Hk a w'). destruct (k a w') as [c w''|]; simpl in *; [|done].
  by etrans.
Qed.

Lemma keeps_try_catch {A} R `{!Transitive R} (m : Js A) (h : JSError → Js A) :
  keeps R m → (∀ e, keeps R (h e)) → keeps R (try_catch m h).
Proof.
  intros Hm Hh w. unfold try_catch. specialize (Hm w).
  destruct (m w) as [[a|e] w'|]; simpl in *; [done| |done].
  specialize (Hh e w'). destruct (h e w') as [c w''|]; simpl in *; [|done].
  by etrans.
Qed.

Lemma keeps_for_each {A} R `{!Reflexive R} `{!Transitive R} (f : A → Js unit) l :
  (∀ x, keeps R (f x)) → keeps R (for_each f l).
Proof.
  intros Hf. induction l as [|x l IH]; simpl; [by apply keeps_ret|].
  apply keeps_bind; [done | apply Hf | intros _; apply IH].
Qed.

Lemma keeps_Response_json R `{!Reflexive R} r : keeps R (Response_json r).
Proof.
  unfold Response_json. destruct (JSON_parse (body r));
    [by apply keeps_ret | by apply keeps_throw].
Qed.

#[local] Instance status_frame_refl server : Reflexive (status_frame server).
Proof. by intros w. Qed.

#[local] Instance status_frame_trans server : Transitive (status_frame server).
Proof.
  intros w1 w2 w3 (Hd & Hl & Ha & Ht & Hr) (Hd' & Hl' & Ha' & Ht' & Hr').
  split; [|split; [|by rewrite Ha', Ht', Hr']].
  - intros key Hkey. by rewrite Hd', Hd.
  - intros key H1 H2. by rewrite Hl', Hl.
Qed.

#[local] Instance logs_frame_refl server : Reflexive (logs_frame server).
Proof. by intros w. Qed.

#[local] Instance logs_frame_trans server : Transitive (logs_frame server).
Proof.
  intros w1 w2 w3 (Hd & Hl & Ha & Ht & Hr) (Hd' & Hl' & Ha' & Ht' & Hr').
  split; [|split; [|by rewrite Ha', Ht', Hr']].
  - intros key Hkey. by rewrite Hd', Hd.
  - intros key H1. by rewrite Hl', Hl.
Qed.

Lemma keeps_after_fetch R o :
  Reflexive R →
  (∀ w, R w (set_location_href login_page
               (set_localStorage (delete "accessToken") w))) →
  keeps R (after_fetch o).
Proof.
  intros Hrefl Hout w. unfold after_fetch. destruct o as [|r]; simpl; [done|].
  destruct (status r =? 401); simpl; [apply Hout | done].
Qed.

Lemma status_frame_unauthorized server w :
  status_frame server w
    (set_location_href login_page (set_localStorage (delete "accessToken") w)).
Proof.
  split; [done|]. split; [|done]. intros key _ Hkey. simpl.
  by apply lookup_delete_ne.
Qed.

Lemma keeps_status_element server i f :
  i ∈ status_ids server → keeps (status_frame server) (update_element i f).
Proof.
  intros Hi w. unfold update_element.
  destruct (document w !! i); simpl; [|done].
  split; [|done]. intros key Hkey. apply lookup_insert_ne. by intros ->.
Qed.

Create HintDb own.

#[local] Hint Resolve keeps_lift keeps_ret keeps_throw keeps_Response_json : own.
#[local] Hint Extern 1 (keeps (status_frame _) (update_element _ _)) =>
  apply keeps_status_element; unfold status_ids; set_solver : own.
#[local] Hint Extern 5 (Reflexive _) => apply _ : own.

Ltac own_steps :=
  repeat first
    [ apply keeps_bind; [apply _ | solve [auto with own] | intros ? ]
    | solve [auto with own] ].

Lemma keeps_renderDashboardData server data :
  keeps (status_frame server) (renderDashboardData server data).
Proof.
  unfold renderDashboardData.
  do 6 (apply keeps_bind; [apply _ | solve [auto with own] | intros ?]).
  apply keeps_bind; [apply _ | | intros _; own_steps].
  destruct (String.eqb _ "running"); [auto with own|].
  destruct (String.eqb _ "terminated"); auto with own.
Qed.

Lemma keeps_store_status server now r :
  keeps (status_frame server) (store_status server now r).
Proof.
  unfold store_status. destruct (negb (ok r)); [auto with own|].
  apply keeps_bind; [apply _ | auto with own | intros data].
  apply keeps_bind; [apply _ | apply keeps_renderDashboardData | intros _].
  intros w. simpl. split; [done|]. split; [|done].
  intros key Hkey _. by apply lookup_insert_ne.
Qed.

Lemma keeps_on_status_error server e :
  keeps (status_frame server) (on_status_error server e).
Proof.
  unfold on_status_error.
  apply keeps_bind; [apply _ | by intros w | intros _]. auto with own.
Qed.

(** Once answered, a status synchronization stays within its frame. *)
Lemma status_continuation_frame server now o :
  keeps (status_frame server)
    (try_catch (bind (after_fetch o) (store_status server now))
       (on_status_error server)).
Proof.
  apply keeps_try_catch; [apply _ | | apply keeps_on_status_error].
  apply keeps_bind; [apply _ | | apply keeps_store_status].
  apply keeps_after_fetch; [apply _ | apply status_frame_unauthorized].
Qed.

(** Until it waits or ends, a status synchronization writes to nothing
    but its four elements. *)
Lemma status_prefix_frame server force w :
  let r := updateDashboardForServer server force w in
  localStorage (world_of r) = localStorage w ∧
  (∀ key, key ∉ status_ids server →
          document (world_of r) !! key = document w !! key) ∧
  alerts (world_of r) = alerts w ∧ timers (world_of r) = timers w.
Proof.
  cbv zeta. pose proof (updateDashboardForServer_cases server force w) as Hc.
  destruct (cached server w) as [v|e]; [|by rewrite Hc].
  destruct (cache_hit force v (clock w)).
  - assert (Hk : settles
               ((let! data := lift (get_prop v "data") in
                 renderDashboardData server data) w)
               (λ _ w', status_frame server w w')).
    { apply (keeps_bind (status_frame server));
        [apply keeps_lift, _ | intros data; apply keeps_renderDashboardData]. }
    destruct (dom_only_frame _ w (served_from_cache_settles server v))
      as (c & w' & Hrun & Hdoc).
    rewrite Hc. rewrite Hrun in Hk |- *. simpl in *.
    apply only_document_fields in Hdoc as (Hls & _ & _ & Hal & _ & Htm & _).
    by destruct Hk as (Hd & _).
  - destruct (session w) as [tok|] eqn:Hs.
    + destruct (guarded_fetch_session (status_url server) no_options
                  (store_status server (clock w)) (on_status_error server) w tok Hs)
        as (k & Hk & _).
      by rewrite Hc, Hk.
    + rewrite Hc, guarded_fetch_no_session, on_status_error_run by done.
      simpl. destruct (document w !! _); simpl; [|done].
      repeat split. intros key Hkey. apply lookup_insert_ne.
      intros <-. apply Hkey. unfold status_ids. set_solver.
Qed.

Lemma other_card_outside server other key :
  id other ≠ id server →
  key ∈ (createServerCard other).*1 → key ∉ status_ids server.
Proof.
  intros Hid Hcard Hown. unfold createServerCard, status_ids in *.
  simpl in Hcard. set_unfold.
  destruct Hown as [-> | [-> | [-> | [-> | []]]]];
    repeat (destruct Hcard as [Hcard|Hcard]; [simplify_eq/=; done|]); done.
Qed.

Lemma other_record_outside server other :
  id other ≠ id server →
  cacheKey other ≠ cacheKey server ∧ cacheKey other ≠ "accessToken".
Proof.
  intros Hid. split; [|apply cacheKey_not_token].
  unfold cacheKey. simpl. intros [= Heq]. done.
Qed.

(** X1. A status synchronization of one server writes neither to the
    card nor to the cached record of a server with another id, before
    its request leaves and after the answer has come. *)
Theorem status_sync_leaves_other_servers server other force w :
  id other ≠ id server →
  let r := updateDashboardForServer server force w in
  (∀ key, key ∈ (createServerCard other).*1 →
          document (world_of r) !! key = document w !! key)
  ∧ localStorage (world_of r) = localStorage w
  ∧ match r with
    | Done _ _ => True
    | Suspend _ k =>
        ∀ o w1, settles (k o w1)
          (λ _ w2,
             (∀ key, key ∈ (createServerCard other).*1 →
                     document w2 !! key = document w1 !! key) ∧
             localStorage w2 !! cacheKey other = localStorage w1 !! cacheKey other)
    end.
Proof.
  intros Hid. cbv zeta.
  destruct (status_prefix_frame server force w) as (Hls & Hdoc & _).
  split; [|split; [done|]].
  - intros key Hkey. apply Hdoc. by eapply other_card_outside.
  - destruct (updateDashboardForServer server force w) as [|ws k] eqn:Hrun; [done|].
    assert (Hw : waiting (updateDashboardForServer server force w) = true)
      by (by rewrite Hrun).
    destruct (updateDashboardForServer_waiting server force w Hw)
      as (tok & v & k' & _ & _ & _ & Heq & Hk).
    rewrite Hrun in Heq. injection Heq as _ <-.
    intros o w1. rewrite Hk.
    pose proof (status_continuation_frame server (clock w) o w1) as Hf.
    unfold try_catch, bind in Hf.
    destruct (catch_res _ _) as [c w2|]; simpl in *; [|done].
    destruct Hf as (Hd & Hl & _).
    destruct (other_record_outside server other Hid) as [H1 H2].
    split; [|by apply Hl].
    intros key Hkey. apply Hd. by eapply other_card_outside.
Qed.

(** *** Rendering *)

Lemma update_element_mounted i f w el :
  document w !! i = Some el →
  update_element i f w = Done (Normal ()) (set_document (insert i (f el)) w).
Proof. intros H. unfold update_element. by rewrite H. Qed.

Lemma get_prop_defined data p :
  data ≠ JUndefined → data ≠ JNull → ∃ v, get_prop data p = Normal v.
Proof. destruct data; intros; simpl; try done; eauto. Qed.

Lemma status_ids_distinct server :
  "vm-name-" +:+ id server ≠ "vm-status-" +:+ id server ∧
  "vm-name-" +:+ id server ≠ "progress-bar-" +:+ id server ∧
  "vm-name-" +:+ id server ≠ "traffic-details-" +:+ id server ∧
  "vm-status-" +:+ id server ≠ "progress-bar-" +:+ id server ∧
  "vm-status-" +:+ id server ≠ "traffic-details-" +:+ id server ∧
  "progress-bar-" +:+ id server ≠ "traffic-details-" +:+ id server.
Proof. repeat split; simpl; discriminate. Qed.

Lemma render_outcome server data w :
  card_mounted server w →
  ∃ c w', renderDashboardData server data w = Done c w'
    ∧ card_mounted server w'
    ∧ (renderable data = true → c = Normal ())
    ∧ (renderable data = false →
         c = Throw TypeErr ∧
         document w' !! ("traffic-details-" +:+ id server)
           = document w !! ("traffic-details-" +:+ id server)).
Proof.
  intros Hm.
  destruct (Hm ("vm-name-" +:+ id server)) as [e1 H1]; [unfold status_ids; set_solver|].
  destruct (Hm ("vm-status-" +:+ id server)) as [e2 H2]; [unfold status_ids; set_solver|].
  destruct (Hm ("progress-bar-" +:+ id server)) as [e3 H3]; [unfold status_ids; set_solver|].
  destruct (Hm ("traffic-details-" +:+ id server)) as [e4 H4]; [unfold status_ids; set_solver|].
  destruct (status_ids_distinct server) as (N12 & N13 & N14 & N23 & N24 & N34).
  assert (Hstay : ∀ (doc : gmap string Element) i el key,
            is_Some (doc !! key) → is_Some (<[i:=el]> doc !! key)).
  { intros doc i el key Hkey. rewrite lookup_insert. by case_decide. }
  unfold renderDashboardData, renderable, card_mounted.
  assert (Hdata : data = JUndefined ∨ data = JNull ∨
                  (data ≠ JUndefined ∧ data ≠ JNull))
    by (destruct data; auto).
  destruct Hdata as [-> | [-> | [Hu Hn]]]; [by eexists _, _ | by eexists _, _ |].
  destruct (get_prop_defined data "instance_name" Hu Hn) as [vn ->].
  destruct (get_prop_defined data "status" Hu Hn) as [vs ->].
  destruct (get_prop_defined data "traffic_usage_percent" Hu Hn) as [vp Hp].
  destruct (get_prop_defined data "current_traffic_gb" Hu Hn) as [vc ->].
  destruct (get_prop_defined data "traffic_threshold_gb" Hu Hn) as [vt Ht].
  unfold bind, lift. simpl. unfold update_element. simpl.
  rewrite H1. simpl. rewrite lookup_insert_ne, H2 by done. simpl.
  rewrite lookup_insert_eq. simpl.
  destruct vs as [| | | |s| |]; simpl;
    try (eexists _, _; split; [reflexivity|];
         split; [intros key Hkey; simpl; repeat apply Hstay; by apply Hm|];
         split; [done|]; intros _; split; [done|];
         simpl; by rewrite !lookup_insert_ne by done).
  assert (Hrest : ∀ cls : string,
    ∃ c w',
      bind_res
        (update_element ("vm-status-" +:+ id server) (classList_add cls)
           (set_document
              (insert ("vm-status-" +:+ id server)
                 (with_className ["status-badge"] (with_textContent s e2)))
              (set_document
                 (insert ("vm-status-" +:+ id server) (with_textContent s e2))
                 (set_document
                    (insert ("vm-name-" +:+ id server)
                       (with_textContent (to_DOMString vn) e1)) w))))
        (λ _,
           let! percent := lift (get_prop data "traffic_usage_percent") in
           update_element ("progress-bar-" +:+ id server)
             (with_style_width (ToString percent +:+ "%")) ;;;
           let! current := lift (Normal vc) in
           let! fixed := lift (toFixed2 current) in
           let! threshold := lift (get_prop data "traffic_threshold_gb") in
           update_element ("traffic-details-" +:+ id server)
             (with_textContent
                (fixed +:+ " GB / " +:+ ToString threshold +:+ " GB ("
                 +:+ ToString percent +:+ "%)")))
      = Done c w'
      ∧ (∀ key, key ∈ status_ids server → is_Some (document w' !! key))
      ∧ (match vc with JNum _ => true | _ => false end = true → c = Normal ())
      ∧ (match vc with JNum _ => true | _ => false end = false →
           c = Throw TypeErr ∧
           document w' !! ("traffic-details-" +:+ id server)
             = document w !! ("traffic-details-" +:+ id server))).
  { intros cls. unfold update_element at 1. simpl. rewrite lookup_insert_eq. simpl.
    unfold bind, lift, update_element. simpl. rewrite Hp. simpl.
    rewrite !lookup_insert_ne, H3 by done. simpl.
    destruct vc as [| | |n| | |]; simpl;
      try (eexists _, _; split; [reflexivity|];
           split; [intros key Hkey; simpl; repeat apply Hstay; by apply Hm|];
           split; [done|]; intros _; split; [done|];
           simpl; by rewrite !lookup_insert_ne by done).
    rewrite Ht. simpl. rewrite !lookup_insert_ne, H4 by done. simpl.
    eexists _, _. split; [reflexivity|].
    split; [intros key Hkey; simpl; repeat apply Hstay; by apply Hm|]. done. }
  destruct (String.eqb (lower_string s) "running"); [apply Hrest|].
  destruct (String.eqb (lower_string s) "terminated"); apply Hrest.
Qed.

(** X2. With the four elements of the card on the page,
    [renderDashboardData] ends normally exactly when the status of the
    data is a string and its current traffic a number; otherwise it
    throws a [TypeError] and the traffic line is as it was.  Either way
    the four elements are still on the page. *)
Theorem renderDashboardData_succeeds_iff_renderable server data w :
  card_mounted server w →
  ∃ c w', renderDashboardData server data w = Done c w'
    ∧ card_mounted server w'
    ∧ (renderable data = true → c = Normal ())
    ∧ (renderable data = false →
         c = Throw TypeErr ∧
         document w' !! ("traffic-details-" +:+ id server)
           = document w !! ("traffic-details-" +:+ id server)).
Proof. apply render_outcome. Qed.


(** X3. When the status of the data is a string and the name and the
    badge of the card are on the page, [renderDashboardData] leaves the
    badge with the status as its text and exactly two classes, whatever
    classes it had and whether or not the rest of the rendering
    succeeds: [status-badge] and one of [running], [terminated] and
    [loading], chosen by the status without regard to the case of its
    letters. *)
Theorem badge_shows_one_state server data s w name0 badge0 :
  get_prop data "status" = Normal (JStr s) →
  document w !! ("vm-name-" +:+ id server) = Some name0 →
  document w !! ("vm-status-" +:+ id server) = Some badge0 →
  settles (renderDashboardData server data w)
    (λ _ w',
       ∃ badge cls,
         document w' !! ("vm-status-" +:+ id server) = Some badge ∧
         textContent badge = s ∧
         classList badge = ["status-badge"; cls] ∧
         (cls = "running" ↔ lower_string s = "running") ∧
         (cls = "terminated" ↔ lower_string s = "terminated") ∧
         (cls = "loading" ↔
            lower_string s ≠ "running" ∧ lower_string s ≠ "terminated")).
Proof.
  intros Hst H1 H2.
  destruct (status_ids_distinct server) as (N12 & N13 & N14 & N23 & N24 & N34).
  set (R := λ w1 w2 : World,
         document w2 !! ("vm-status-" +:+ id server)
         = document w1 !! ("vm-status-" +:+ id server)).
  assert (HRr : Reflexive R) by done.
  assert (HRt : Transitive R) by (intros ? ? ? Ha Hb; unfold R in *; congruence).
  assert (Hup : ∀ i f, i ≠ "vm-status-" +:+ id server → keeps R (update_element i f)).
  { intros i f Hi w0. unfold update_element.
    destruct (document w0 !! i); simpl; [|done].
    unfold R. simpl. by apply lookup_insert_ne. }
  assert (Htail : ∀ vc : JSValue, keeps R
    (let! percent := lift (get_prop data "traffic_usage_percent") in
     update_element ("progress-bar-" +:+ id server)
       (with_style_width (ToString percent +:+ "%")) ;;;
     let! current := lift (Normal vc) in
     let! fixed := lift (toFixed2 current) in
     let! threshold := lift (get_prop data "traffic_threshold_gb") in
     update_element ("traffic-details-" +:+ id server)
       (with_textContent
          (fixed +:+ " GB / " +:+ ToString threshold +:+ " GB ("
           +:+ ToString percent +:+ "%)")))).
  { intros vc.
    apply keeps_bind; [done | by apply keeps_lift | intros percent].
    apply keeps_bind; [done | by apply Hup | intros _].
    apply keeps_bind; [done | by apply keeps_lift | intros current].
    apply keeps_bind; [done | by apply keeps_lift | intros fixed].
    apply keeps_bind; [done | by apply keeps_lift | intros threshold].
    by apply Hup. }
  assert (Hdata : data ≠ JUndefined ∧ data ≠ JNull) by (by destruct data).
  destruct Hdata as [Hu Hn].
  destruct (get_prop_defined data "instance_name" Hu Hn) as [vn Hvn].
  destruct (get_prop_defined data "current_traffic_gb" Hu Hn) as [vc Hvc].
  assert (Hrest : ∀ cls : string,
    (cls = "running" ↔ lower_string s = "running") →
    (cls = "terminated" ↔ lower_string s = "terminated") →
    (cls = "loading" ↔
       lower_string s ≠ "running" ∧ lower_string s ≠ "terminated") →
    settles
      (bind_res
         (update_element ("vm-status-" +:+ id server) (classList_add cls)
            (set_document
               (insert ("vm-status-" +:+ id server)
                  (with_className ["status-badge"] (with_textContent s badge0)))
               (set_document
                  (insert ("vm-status-" +:+ id server) (with_textContent s badge0))
                  (set_document
                     (insert ("vm-name-" +:+ id server)
                        (with_textContent (to_DOMString vn) name0)) w))))
         (λ _,
            let! percent := lift (get_prop data "traffic_usage_percent") in
            update_element ("progress-bar-" +:+ id server)
              (with_style_width (ToString percent +:+ "%")) ;;;
            let! current := lift (Normal vc) in
            let! fixed := lift (toFixed2 current) in
            let! threshold := lift (get_prop data "traffic_threshold_gb") in
            update_element ("traffic-details-" +:+ id server)
              (with_textContent
                 (fixed +:+ " GB / " +:+ ToString threshold +:+ " GB ("
                  +:+ ToString percent +:+ "%)"))))
      (λ _ w',
         ∃ badge cls0,
           document w' !! ("vm-status-" +:+ id server) = Some badge ∧
           textContent badge = s ∧
           classList badge = ["status-badge"; cls0] ∧
           (cls0 = "running" ↔ lower_string s = "running") ∧
           (cls0 = "terminated" ↔ lower_string s = "terminated") ∧
           (cls0 = "loading" ↔
              lower_string s ≠ "running" ∧ lower_string s ≠ "terminated"))).
  { intros cls Hc1 Hc2 Hc3.
    rewrite (update_element_mounted _ _ _
               (with_className ["status-badge"] (with_textContent s badge0)))
      by (simpl; apply lookup_insert_eq).
    cbn [bind_res].
    match goal with |- settles (?tail ?W) _ =>
      pose proof (Htail vc W) as Hk; destruct (tail W) as [c w'|]; [|done]
    end.
    simpl in *. unfold R in Hk. simpl in Hk. rewrite lookup_insert_eq in Hk.
    eexists _, cls. split; [exact Hk|]. split; [done|]. split; [|done].
    unfold classList_add. simpl.
    assert (String.eqb cls "status-badge" = false) as ->; [|done].
    apply String.eqb_neq. intros ->.
    destruct (String.eqb_spec (lower_string s) "running") as [E1|E1].
    - by apply Hc1 in E1.
    - destruct (String.eqb_spec (lower_string s) "terminated") as [E2|E2].
      + by apply Hc2 in E2.
      + by assert ("status-badge" = "loading") by (by apply Hc3). }
  unfold renderDashboardData.
  unfold bind at 1, lift at 1. rewrite Hvn. cbn [bind_res].
  unfold bind at 1. rewrite (update_element_mounted _ _ _ name0 H1). cbn [bind_res].
  unfold bind at 1, lift at 1. rewrite Hst. cbn [bind_res].
  unfold bind at 1.
  rewrite (update_element_mounted _ _ _ badge0)
    by (simpl; by rewrite lookup_insert_ne).
  cbn [bind_res]. unfold bind at 1.
  rewrite (update_element_mounted _ _ _ (with_textContent (to_DOMString (JStr s)) badge0))
    by (simpl; apply lookup_insert_eq).
  cbn [bind_res]. unfold bind at 1, lift at 1. cbn [bind_res toLowerCase].
  unfold bind at 1. rewrite Hvc.
  destruct (String.eqb_spec (lower_string s) "running") as [E1|E1].
  { apply (Hrest "running"); [done | rewrite E1; split; done | rewrite E1; split; [done|tauto]]. }
  destruct (String.eqb_spec (lower_string s) "terminated") as [E2|E2].
  { apply (Hrest "terminated"); [rewrite E2; split; done | done | rewrite E2; split; [done|tauto]]. }
  apply (Hrest "loading"); [split; [done|tauto] | split; [done|tauto] | done].
Qed.

(** *** What a status synchronization stores *)

(** X4. A status synchronization that went to the network ends in one of
    two ways.  Either the response was a 2xx whose JSON body was rendered
    without error: then the record of the server is that data with the
    time read before the request left, and no error is logged.  Or
    anything else happened (network failure, 401, other status, body
    that is not JSON, data that cannot be rendered): then the record is
    the one that was there when the answer came and the error is logged;
    and with the card on the page the call does not reject and the
    traffic line reads [Error loading data.] *)
Theorem status_sync_stores_or_reports server force w env o w1 :
  waiting (updateDashboardForServer server force w) = true →
  env (world_of (updateDashboardForServer server force w)) = (o, w1) →
  let '(c, w2) := complete (updateDashboardForServer server force w) env in
  (∃ r data,
     o = Responded r ∧ ok r = true ∧ JSON_parse (body r) = Some data ∧
     settles (renderDashboardData server data w1) (λ c' _, c' = Normal ()) ∧
     c = Normal () ∧
     localStorage w2 !! cacheKey server
       = Some (JSON_stringify (cache_record data (clock w))) ∧
     console_errors w2 = console_errors w1)
  ∨ (localStorage w2 !! cacheKey server = localStorage w1 !! cacheKey server ∧
     (∃ e, console_errors w2 = console_errors w1 ++
             [("Error updating dashboard for " +:+ id server +:+ ":", e)]) ∧
     (card_mounted server w1 →
        c = Normal () ∧
        textContent <$> document w2 !! ("traffic-details-" +:+ id server)
          = Some "Error loading data.")).
Proof.
  intros Hw Henv.
  destruct (updateDashboardForServer_waiting server force w Hw)
    as (tok & v & k & Hs & Hv & Hhit & Heq & Hk).
  rewrite Heq in Henv |- *. simpl in Henv.
  rewrite (complete_Suspend _ _ _ _ _ Henv), Hk.
  assert (Hreport : ∀ e wr,
    localStorage wr !! cacheKey server = localStorage w1 !! cacheKey server →
    console_errors wr = console_errors w1 →
    (card_mounted server w1 → card_mounted server wr) →
    let '(c, w2) := complete (on_status_error server e wr) env in
    localStorage w2 !! cacheKey server = localStorage w1 !! cacheKey server ∧
    (∃ e, console_errors w2 = console_errors w1 ++
            [("Error updating dashboard for " +:+ id server +:+ ":", e)]) ∧
    (card_mounted server w1 →
       c = Normal () ∧
       textContent <$> document w2 !! ("traffic-details-" +:+ id server)
         = Some "Error loading data.")).
  { intros e wr Hls Hcon Hm. rewrite on_status_error_run. simpl.
    destruct (document wr !! _) as [el|] eqn:Hel; simpl.
    - rewrite Hls, Hcon. split; [done|]. split; [by exists e|].
      intros _. split; [done|]. by rewrite lookup_insert_eq.
    - rewrite Hls, Hcon. split; [done|]. split; [by exists e|].
      intros Hm1. destruct (Hm Hm1 ("traffic-details-" +:+ id server)) as [el Hel'];
        [unfold status_ids; set_solver | congruence]. }
  assert (Hright : ∀ e wr,
    localStorage wr !! cacheKey server = localStorage w1 !! cacheKey server →
    console_errors wr = console_errors w1 →
    (card_mounted server w1 → card_mounted server wr) →
    let '(c, w2) := complete (on_status_error server e wr) env in
    (∃ r data,
       o = Responded r ∧ ok r = true ∧ JSON_parse (body r) = Some data ∧
       settles (renderDashboardData server data w1) (λ c' _, c' = Normal ()) ∧
       c = Normal () ∧
       localStorage w2 !! cacheKey server
         = Some (JSON_stringify (cache_record data (clock w))) ∧
       console_errors w2 = console_errors w1)
    ∨ (localStorage w2 !! cacheKey server = localStorage w1 !! cacheKey server ∧
       (∃ e, console_errors w2 = console_errors w1 ++
               [("Error updating dashboard for " +:+ id server +:+ ":", e)]) ∧
       (card_mounted server w1 →
          c = Normal () ∧
          textContent <$> document w2 !! ("traffic-details-" +:+ id server)
            = Some "Error loading data."))).
  { intros e wr H1 H2 H3. pose proof (Hreport e wr H1 H2 H3) as Hrep.
    destruct (complete _ _) as [c w2]. by right. }
  clear Hreport.
  destruct o as [|r]; cbn [after_fetch bind_res catch_res].
  { by apply (Hright NetworkErr w1). }
  destruct (status r =? 401) eqn:H401; cbn [bind_res catch_res].
  { apply (Hright (Err "Unauthorized")); [|done|done].
    simpl. apply lookup_delete_ne. symmetry. apply cacheKey_not_token. }
  unfold store_status. destruct (ok r) eqn:Hok; cbn [negb];
    [|by apply (Hright _ w1)].
  unfold bind at 1, Response_json.
  destruct (JSON_parse (body r)) as [data|] eqn:Hbody; cbn [ret throw bind_res catch_res];
    [|by apply (Hright _ w1)].
  unfold bind.
  destruct (dom_only_frame _ w1 (dom_only_renderDashboardData server data))
    as (c' & wr & Hrender & Hdoc).
  pose proof (only_document_fields _ _ Hdoc) as (Hls & _ & Hcon & _).
  rewrite Hrender. destruct c' as [[]|e]; cbn [bind_res catch_res].
  - left. exists r, data. rewrite Hrender. simpl.
    repeat split; try done. by rewrite lookup_insert_eq.
  - apply (Hright e wr); [by rewrite Hls | done |].
    intros Hm1. destruct (render_outcome server data w1 Hm1)
      as (c'' & w'' & Hr' & Hm' & _).
    rewrite Hrender in Hr'. by injection Hr' as _ <-.
Qed.

(** X5. With a session token stored and a record written at time [t], a
    non-forced status synchronization goes to the network exactly when
    the clock is at least 3600000 ms past [t]: a record exactly one hour
    old is refreshed, and a record from the future (the clock was set
    back) is served. *)
Theorem freshness_boundary server w tok data t :
  session w = Some tok →
  cached server w = Normal (cache_record data t) →
  waiting (updateDashboardForServer server false w)
    = bool_decide (3600000 ≤ clock w - t).
Proof.
  intros Hs Hv.
  pose proof (updateDashboardForServer_cases server false w) as Hc.
  rewrite Hv in Hc.
  assert (Hhit : cache_hit false (cache_record data t) (clock w)
                 = (clock w - t <? 3600000)) by done.
  rewrite Hhit in Hc. rewrite Hc.
  destruct (clock w - t <? 3600000) eqn:Hage.
  - apply Z.ltb_lt in Hage.
    destruct (dom_only_frame _ w
                (served_from_cache_settles server (cache_record data t)))
      as (c & w' & -> & _).
    simpl. symmetry. apply bool_decide_eq_false. lia.
  - apply Z.ltb_ge in Hage.
    destruct (guarded_fetch_session (status_url server) no_options
                (store_status server (clock w)) (on_status_error server) w tok Hs)
      as (k & -> & _).
    simpl. symmetry. by apply bool_decide_eq_true.
Qed.

(** X6. A fresh record whose data cannot be rendered is not repaired by
    a non-forced synchronization: with the card on the page, the call
    rejects with a [TypeError] thrown outside the [try] block, having
    sent no request, logged no error, written nothing to localStorage
    and left the traffic line as it was. *)
Theorem unrenderable_fresh_record_rejects server w v data :
  card_mounted server w →
  cached server w = Normal v →
  cache_hit false v (clock w) = true →
  get_prop v "data" = Normal data →
  renderable data = false →
  ∃ w', updateDashboardForServer server false w = Done (Throw TypeErr) w'
      ∧ localStorage w' = localStorage w
      ∧ requests w' = requests w
      ∧ console_errors w' = console_errors w
      ∧ document w' !! ("traffic-details-" +:+ id server)
          = document w !! ("traffic-details-" +:+ id server).
Proof.
  intros Hm Hv Hhit Hdata Hbad.
  pose proof (updateDashboardForServer_cases server false w) as Hc.
  rewrite Hv, Hhit in Hc. rewrite Hc. unfold bind, lift. rewrite Hdata. simpl.
  destruct (render_outcome server data w Hm) as (c & w' & Hrun & _ & _ & Hthrow).
  destruct (Hthrow Hbad) as [-> Htraffic].
  destruct (dom_only_frame _ w (dom_only_renderDashboardData server data))
    as (c' & w'' & Hrun' & Hdoc).
  rewrite Hrun in Hrun'. injection Hrun' as _ <-.
  apply only_document_fields in Hdoc as (Hls & _ & Hcon & _ & Hreq & _).
  by exists w'.
Qed.

(** *** The list of the action logs *)

Lemma render_log_run logsList log el w :
  defined log →
  document w !! logsList = Some el →
  render_log logsList log w
  = Done (Normal ())
      (set_document (insert logsList (appendChild (log_line log) el)) w).
Proof.
  intros [Hu Hn] Hel. unfold render_log, log_line.
  destruct (get_prop_defined log "timestamp" Hu Hn) as [ts ->].
  destruct (get_prop_defined log "action_type" Hu Hn) as [a ->].
  destruct (get_prop_defined log "reason" Hu Hn) as [r ->].
  unfold bind, lift. simpl. by rewrite (update_element_mounted _ _ _ el).
Qed.

Lemma for_each_render_log logsList items :
  ∀ w el,
    Forall defined items →
    document w !! logsList = Some el →
    ∃ w', for_each (render_log logsList) items w = Done (Normal ()) w'
        ∧ document w' !! logsList
            = Some (with_children (children el ++ map log_line items) el)
        ∧ only_document w w'.
Proof.
  induction items as [|log items IH]; intros w el Hall Hel.
  - exists w. simpl. rewrite app_nil_r. split; [done|].
    split; [by destruct el | apply only_document_refl].
  - apply Forall_cons in Hall as [Hlog Hall]. simpl.
    unfold bind. rewrite (render_log_run _ _ el) by done. simpl.
    destruct (IH (set_document (insert logsList (appendChild (log_line log) el)) w)
                 (appendChild (log_line log) el) Hall)
      as (w' & -> & Hdoc & Hframe); [simpl; apply lookup_insert_eq|].
    exists w'. split; [done|]. split.
    + rewrite Hdoc. simpl. by rewrite <- app_assoc.
    + eapply only_document_trans; [|exact Hframe]. by eexists.
Qed.

(** X7. When the answer to an action-log synchronization is a 2xx whose
    body is a JSON array of entries, the list of the server's card shows
    one line per entry, in the order of the response, in place of
    whatever it showed before; for an empty array it shows the single
    line [No actions logged for this server.]; no error is logged. *)
Theorem action_logs_are_listed_in_order server w tok env r w1 items el :
  session w = Some tok →
  env (send (logs_request server tok) w) = (Responded r, w1) →
  ok r = true →
  JSON_parse (body r) = Some (JArr items) →
  Forall defined items →
  document w1 !! ("action-logs-" +:+ id server) = Some el →
  let '(c, w2) := complete (updateActionLogsForServer server w) env in
  c = Normal ()
  ∧ document w2 !! ("action-logs-" +:+ id server)
      = Some (with_children
                (match items with
                 | [] => ["No actions logged for this server."]
                 | _ :: _ => map log_line items
                 end) el)
  ∧ console_errors w2 = console_errors w1.
Proof.
  intros Hs Henv Hok Hbody Hall Hel.
  destruct (updateActionLogsForServer_session server w tok Hs) as (k & -> & Hk).
  rewrite (complete_Suspend _ _ _ _ _ Henv), Hk.
  unfold after_fetch. rewrite (ok_not_401 r Hok). cbn [bind_res].
  unfold show_logs. rewrite Hok. cbn [negb].
  unfold bind at 1, Response_json. rewrite Hbody. cbn [ret bind_res].
  unfold bind at 1. rewrite (update_element_mounted _ _ _ el Hel). cbn [bind_res].
  unfold bind at 1, lift. cbn [bind_res get_prop]. rewrite String.eqb_refl.
  destruct items as [|log items].
  - change (Z.of_nat (length (@nil JSValue))) with 0. cbv iota.
    rewrite (update_element_mounted _ _ _ (with_children [] el))
      by (simpl; apply lookup_insert_eq).
    simpl. rewrite lookup_insert_eq. by destruct el.
  - change (Z.of_nat (length (log :: items)))
      with (Z.pos (Pos.of_succ_nat (length items))).
    cbv iota. cbn [forEach].
    destruct (for_each_render_log ("action-logs-" +:+ id server) (log :: items)
                (set_document
                   (insert ("action-logs-" +:+ id server) (with_children [] el)) w1)
                (with_children [] el) Hall)
      as (w' & Hrun & Hdoc & Hframe); [simpl; apply lookup_insert_eq|].
    rewrite Hrun. simpl. rewrite Hdoc.
    apply only_document_fields in Hframe as (_ & _ & -> & _).
    by destruct el.
Qed.

(** *** Functions that never reject *)

#[local] Instance action_frame_refl : Reflexive action_frame.
Proof. by intros w. Qed.

#[local] Instance action_frame_trans : Transitive action_frame.
Proof.
  intros w1 w2 w3 (Hd & Hl & Hr) (Hd' & Hl' & Hr').
  split; [by rewrite Hd'|]. split; [|by rewrite Hr'].
  intros key Hkey. by rewrite Hl', Hl.
Qed.

Lemma action_frame_unauthorized w :
  action_frame w
    (set_location_href login_page (set_localStorage (delete "accessToken") w)).
Proof.
  split; [done|]. split; [|done]. intros key Hkey. simpl.
  by apply lookup_delete_ne.
Qed.

Lemma keeps_after_action server action response :
  keeps action_frame (after_action server action response).
Proof.
  unfold after_action. destruct (ok response).
  - apply keeps_bind; [apply _ | by intros w | intros _]. by intros w.
  - apply keeps_bind; [apply _ | apply keeps_Response_json, _ | intros error].
    apply keeps_bind; [apply _ | apply keeps_lift, _ | intros detail].
    by intros w.
Qed.

Lemma action_continuation_frame server action o :
  keeps action_frame
    (try_catch (bind (after_fetch o) (after_action server action))
       (on_action_error server action)).
Proof.
  apply keeps_try_catch; [apply _ | | by intros e w].
  apply keeps_bind; [apply _ | | apply keeps_after_action].
  apply keeps_after_fetch; [apply _ | apply action_frame_unauthorized].
Qed.

(** A [try] block that ends without waiting, with a [catch] block that
    only logs: the whole ends normally. *)
Lemma logged_catch_ends_normally (m : Js unit) label w :
  waiting (m w) = false →
  ∃ w', try_catch m (console_error label) w = Done (Normal ()) w'.
Proof.
  intros Hw. unfold try_catch. destruct (m w) as [[[]|e] w'|]; [| |done].
  - by exists w'.
  - simpl. by eexists.
Qed.

Lemma keeps_settles {A} R (m : Js A) w : keeps R m → waiting (m w) = false.
Proof. intros Hm. specialize (Hm w). by destruct (m w). Qed.

(** X8. An action-log synchronization and an action never reject: in
    every environment, whatever the session, the answer, its body and
    the page, the call ends normally (its [catch] block only logs). *)
Theorem logs_and_actions_never_reject server action confirmed w env :
  (complete (updateActionLogsForServer server w) env).1 = Normal ()
  ∧ (complete (handleVmAction server action confirmed w) env).1 = Normal ().
Proof.
  split.
  - destruct (session w) as [tok|] eqn:Hs;
      [|by rewrite updateActionLogsForServer_no_session].
    destruct (updateActionLogsForServer_session server w tok Hs) as (k & -> & Hk).
    simpl. destruct (env _) as [o w1]. rewrite Hk.
    destruct (logged_catch_ends_normally
                (bind (after_fetch o) (show_logs server))
                ("Error updating action logs for " +:+ id server +:+ ":") w1)
      as [w2 Hrun].
    2: { unfold try_catch, bind in Hrun.
         change (on_logs_error server)
           with (console_error ("Error updating action logs for " +:+ id server +:+ ":")).
         by rewrite Hrun. }
    unfold bind. destruct o as [|r]; simpl; [done|].
    destruct (status r =? 401); simpl; [done|].
    by destruct (dom_only_frame _ w1 (dom_only_show_logs server r))
      as (c & w' & -> & _).
  - destruct confirmed; [|done].
    destruct (session w) as [tok|] eqn:Hs.
    + destruct (handleVmAction_session server action w tok Hs) as (k & -> & Hk).
      simpl. destruct (env _) as [o w1]. rewrite Hk.
      destruct (logged_catch_ends_normally
                  (bind (after_fetch o) (after_action server action))
                  ("Error during " +:+ action +:+ " for " +:+ id server +:+ ":") w1)
        as [w2 Hrun].
      2: { unfold try_catch, bind in Hrun.
           change (on_action_error server action)
             with (console_error ("Error during " +:+ action +:+ " for " +:+ id server +:+ ":")).
           by rewrite Hrun. }
      apply (keeps_settles action_frame).
      apply keeps_bind; [apply _ | | apply keeps_after_action].
      apply keeps_after_fetch; [apply _ | apply action_frame_unauthorized].
    + unfold handleVmAction. simpl. by rewrite guarded_fetch_no_session.
Qed.

(** X9. When the transport of an action throws, because the network
    fails or the answer is a 401, the user is told nothing: no alert, no
    timer, no change to the document; the error goes to the console. *)
Theorem action_transport_failure_is_silent server action w tok env o w1 :
  session w = Some tok →
  env (send (action_request server action tok) w) = (o, w1) →
  (o = NetworkFailure ∨ ∃ r, o = Responded r ∧ status r = 401) →
  let w2 := (complete (handleVmAction server action true w) env).2 in
  alerts w2 = alerts w1 ∧ timers w2 = timers w1 ∧ document w2 = document w1
  ∧ ∃ e, console_errors w2 = console_errors w1 ++
           [("Error during " +:+ action +:+ " for " +:+ id server +:+ ":", e)].
Proof.
  intros Hs Henv Ho.
  destruct (handleVmAction_session server action w tok Hs) as (k & -> & Hk).
  rewrite (complete_Suspend _ _ _ _ _ Henv), Hk.
  destruct Ho as [-> | (r & -> & H401)]; simpl.
  - repeat split. by eexists.
  - rewrite H401. simpl. repeat split. by eexists.
Qed.

(** X10. Whatever the answer, an action writes to no element of the
    document and to no item of localStorage but the token, and sends
    nothing after its one request: what the page shows changes only when
    the delayed synchronization runs. *)
Theorem action_touches_neither_document_nor_cache server action w tok env o w1 :
  session w = Some tok →
  env (send (action_request server action tok) w) = (o, w1) →
  let w2 := (complete (handleVmAction server action true w) env).2 in
  document w2 = document w1
  ∧ (∀ key, key ≠ "accessToken" →
            localStorage w2 !! key = localStorage w1 !! key)
  ∧ requests w2 = requests w1.
Proof.
  intros Hs Henv.
  destruct (handleVmAction_session server action w tok Hs) as (k & -> & Hk).
  rewrite (complete_Suspend _ _ _ _ _ Henv), Hk.
  pose proof (action_continuation_frame server action o w1) as Hf.
  unfold try_catch, bind in Hf.
  by destruct (catch_res _ _) as [c w2|].
Qed.

(** *** The bearer token of a request *)

#[local] Set Warnings "-clear-no-such-hyp".

Lemma set_header_spec k v hs :
  NoDup hs.*1 →
  NoDup (set_header k v hs).*1 ∧
  ∀ k' v', (k', v') ∈ set_header k v hs ↔
           (k' = k ∧ v' = v) ∨ (k' ≠ k ∧ (k', v') ∈ hs).
Proof.
  induction hs as [|[k0 v0] hs IH]; intros Hnd.
  - split; [apply NoDup_singleton|]. intros k' v'. simpl. set_solver.
  - apply NoDup_cons in Hnd as [Hk0 Hnd]. destruct (IH Hnd) as [IH1 IH2].
    simpl. destruct (String.eqb_spec k k0) as [<-|Hne]; simpl.
    + split; [by apply NoDup_cons|]. intros k' v'. rewrite !elem_of_cons.
      split.
      * intros [[= -> ->]|Hin]; [by left|]. right. split; [|by right].
        intros ->. apply Hk0. apply list_elem_of_fmap. by exists (k, v').
      * intros [[-> ->]|[Hne [[= -> ->]|Hin]]]; [by left|done|by right].
    + split.
      * apply NoDup_cons. split; [|done]. intros Hin.
        apply list_elem_of_fmap in Hin as [[k1 v1] [Heq Hin]]. simpl in Heq. subst k1.
        apply IH2 in Hin as [[-> _]|[_ Hin]]; [done|].
        apply Hk0. apply list_elem_of_fmap. by exists (k0, v1).
      * intros k' v'. rewrite !elem_of_cons, IH2. split.
        -- intros [[= -> ->]|[?|[? ?]]]; [right; split; [done|by left]|by left|].
           right. split; [done|by right].
        -- intros [?|[? [[= -> ->]|?]]]; [by right; left|by left|by right; right].
Qed.

(** X11. The request [fetchWithAuth] builds goes to the url it was given
    and carries one [Authorization] header, the bearer token of the
    stored session: an [Authorization] header passed by the caller is
    replaced, and every other header of the caller is kept. *)
Theorem request_carries_the_stored_token u options tok :
  NoDup (opt_headers options).*1 →
  let req := auth_request u options tok in
  url req = u
  ∧ NoDup (headers req).*1
  ∧ (∀ v, ("Authorization", v) ∈ headers req ↔ v = "Bearer " +:+ tok)
  ∧ (∀ k v, k ≠ "Authorization" →
            (k, v) ∈ headers req ↔ (k, v) ∈ opt_headers options).
Proof.
  intros Hnd. simpl.
  destruct (set_header_spec "Authorization" ("Bearer " +:+ tok)
              (opt_headers options) Hnd) as [H1 H2].
  split; [done|]. split; [done|]. split.
  - intros v. rewrite H2. naive_solver.
  - intros k v Hk. rewrite H2. naive_solver.
Qed.

(** *** After a logout *)

(** X12. After a click on the logout button localStorage is empty and
    the location is the login page; a status synchronization that still
    runs on that page, forced or not, serves nothing from the cache and
    sends nothing: it is the [catch] block run on the error
    [No token found, redirecting to login.] *)
Theorem nothing_is_served_after_logout server force w :
  let w' := world_of (logout w) in
  localStorage w' = ∅
  ∧ location_href w' = login_page
  ∧ updateDashboardForServer server force w'
    = on_status_error server (Err "No token found, redirecting to login.")
        (set_location_href login_page w').
Proof.
  cbv zeta. simpl. split; [done|]. split; [done|].
  pose proof (updateDashboardForServer_cases server force
                (set_location_href login_page (set_localStorage (λ _, ∅) w))) as Hc.
  unfold cached in Hc. simpl in Hc. rewrite lookup_empty in Hc. simpl in Hc.
  assert (Hhit : cache_hit force JNull (clock w) = false)
    by (unfold cache_hit; simpl; apply andb_false_r).
  rewrite Hhit in Hc. rewrite Hc.
  by apply guarded_fetch_no_session.
Qed.

(** *** The periodic refreshes *)

Lemma session_send req w : session (send req w) = session w.
Proof. done. Qed.

(** X13. With a session token stored, the five-minute refresh starts one
    action-log synchronization per server of the list and sends one
    request each, in the order of the list; all of them wait for their
    answers at the same time. *)
Theorem logs_refresh_sends_one_request_per_server servers w tok :
  session w = Some tok →
  let '(started, w') := logs_refresh servers w in
  requests w' = requests w ++ map (λ server, logs_request server tok) servers
  ∧ length started = length servers
  ∧ Forall (λ r, waiting r = true) started.
Proof.
  unfold logs_refresh. revert w.
  induction servers as [|server servers IH]; intros w Hs; simpl.
  - by rewrite app_nil_r.
  - destruct (updateActionLogsForServer_session server w tok Hs) as (k & Hrun & _).
    rewrite Hrun. simpl.
    specialize (IH (send (logs_request server tok) w) Hs).
    destruct (start_all _ _) as [started w']. destruct IH as (Hreq & Hlen & Hall).
    split; [by rewrite Hreq; simpl; rewrite <- app_assoc|].
    split; [by rewrite <- Hlen|]. by apply Forall_cons.
Qed.

Lemma stale_same_store server w w' :
  localStorage w' = localStorage w → clock w' = clock w →
  stale server w' = stale server w.
Proof. intros Hls Hclock. unfold stale, cached. by rewrite Hls, Hclock. Qed.

Lemma session_same_store w w' :
  localStorage w' = localStorage w → session w' = session w.
Proof. intros Hls. unfold session. by rewrite Hls. Qed.

(** Until it waits or ends, a non-forced status synchronization leaves
    localStorage and the clock as they are and sends its request exactly
    when the server has no fresh record. *)
Lemma status_prefix_requests server w tok :
  session w = Some tok →
  let r := updateDashboardForServer server false w in
  localStorage (world_of r) = localStorage w ∧
  clock (world_of r) = clock w ∧
  waiting r = stale server w ∧
  requests (world_of r)
    = requests w ++ (if stale server w then [status_request server tok] else []).
Proof.
  intros Hs. cbv zeta. unfold stale.
  pose proof (updateDashboardForServer_cases server false w) as Hc.
  destruct (cached server w) as [v|e]; [|by rewrite Hc, app_nil_r].
  destruct (cache_hit false v (clock w)); simpl.
  - destruct (dom_only_frame _ w (served_from_cache_settles server v))
      as (c & w' & Hrun & Hdoc).
    rewrite Hc, Hrun, app_nil_r. simpl.
    by apply only_document_fields in Hdoc as (-> & _ & _ & _ & -> & _ & ->).
  - destruct (guarded_fetch_session (status_url server) no_options
                (store_status server (clock w)) (on_status_error server) w tok Hs)
      as (k & Hk & _).
    by rewrite Hc, Hk.
Qed.

(** X14. With a session token stored, the hourly refresh starts a status
    synchronization for every server of the list, whatever happens to
    the ones before it (a served record, a record that is not JSON), and
    sends one request for each server that has no fresh record, in the
    order of the list, and none for the others. *)
Theorem hourly_refresh_fetches_the_stale_records servers w tok :
  session w = Some tok →
  let '(started, w') := hourly_refresh servers w in
  requests w'
    = requests w ++
      map (λ server, status_request server tok)
        (List.filter (λ server, stale server w) servers)
  ∧ length started = length servers
  ∧ Forall2 (λ r server, waiting r = stale server w) started servers.
Proof.
  intros Hs. unfold hourly_refresh.
  assert (Hgen : ∀ w0, localStorage w0 = localStorage w → clock w0 = clock w →
            let '(started, w') :=
              start_all (map (λ server, updateDashboardForServer server false) servers) w0 in
            requests w'
              = requests w0 ++
                map (λ server, status_request server tok)
                  (List.filter (λ server, stale server w) servers)
            ∧ length started = length servers
            ∧ Forall2 (λ r server, waiting r = stale server w) started servers).
  { induction servers as [|server servers IH]; intros w0 Hls Hclock; simpl.
    - by rewrite app_nil_r.
    - assert (Hs0 : session w0 = Some tok)
        by (by rewrite (session_same_store w w0)).
      destruct (status_prefix_requests server w0 tok Hs0) as (Hls' & Hclock' & Hwait & Hreq).
      rewrite (stale_same_store server w w0) in Hwait, Hreq by done.
      specialize (IH (world_of (updateDashboardForServer server false w0))).
      destruct (start_all _ _) as [started w'].
      destruct IH as (Hreq' & Hlen & Hall); [congruence | congruence |].
      split; [|split; [by rewrite <- Hlen | by apply Forall2_cons]].
      rewrite Hreq', Hreq. destruct (stale server w); simpl.
      + by rewrite <- app_assoc.
      + by rewrite app_nil_r. }
  by apply Hgen.
Qed.

(** *** The cards stay on the page *)

#[local] Instance elements_stay_refl : Reflexive elements_stay.
Proof. by intros w key. Qed.

#[local] Instance elements_stay_trans : Transitive elements_stay.
Proof. intros w1 w2 w3 H12 H23 key Hkey. by apply H23, H12. Qed.


Lemma keeps_elements_update i f : keeps elements_stay (update_element i f).
Proof.
  intros w. unfold update_element. destruct (document w !! i) eqn:Hi; simpl; [|done].
  intros key Hkey. simpl. rewrite lookup_insert. by case_decide.
Qed.

#[local] Hint Resolve keeps_elements_update : own.











(** *** What an action-log synchronization shows *)

Lemma keeps_logs_element server f :
  keeps (logs_frame server) (update_element ("action-logs-" +:+ id server) f).
Proof.
  intros w. unfold update_element.
  destruct (document w !! _); simpl; [|done].
  split; [|done]. intros key Hkey. by apply lookup_insert_ne.
Qed.

#[local] Hint Resolve keeps_logs_element : own.

Lemma keeps_logs_show_logs server r :
  keeps (logs_frame server) (show_logs server r).
Proof.
  unfold show_logs. destruct (negb (ok r)); [auto with own|].
  apply keeps_bind; [apply _ | auto with own | intros logs].
  apply keeps_bind; [apply _ | auto with own | intros _].
  apply keeps_bind; [apply _ | auto with own | intros len].
  assert (Hloop : keeps (logs_frame server)
                    (forEach logs (render_log ("action-logs-" +:+ id server)))).
  { unfold forEach. destruct logs; auto with own.
    apply keeps_for_each; [apply _ | apply _ |]. intros log.
    unfold render_log. own_steps. }
  destruct len as [| | |n| | |]; try exact Hloop.
  destruct n; [auto with own | exact Hloop | exact Hloop].
Qed.

(** X16. Once answered, an action-log synchronization writes to one
    element only, the list of the logs of its server: every other
    element of the page (the status, the traffic line, the cards of the
    other servers) is as it was when the answer came, and no alert is
    shown nor timer set. *)
Theorem logs_sync_writes_only_its_list server w tok :
  session w = Some tok →
  ∃ k, updateActionLogsForServer server w
       = Suspend (send (logs_request server tok) w) k
     ∧ ∀ o w1, settles (k o w1)
         (λ _ w2,
            (∀ key, key ≠ "action-logs-" +:+ id server →
                    document w2 !! key = document w1 !! key) ∧
            alerts w2 = alerts w1 ∧ timers w2 = timers w1).
Proof.
  intros Hs.
  destruct (updateActionLogsForServer_session server w tok Hs) as (k & Hrun & Hk).
  exists k. split; [done|]. intros o w1. rewrite Hk.
  assert (Hf : keeps (logs_frame server)
                 (try_catch (bind (after_fetch o) (show_logs server))
                    (on_logs_error server))).
  { apply keeps_try_catch; [apply _ | | by intros e w0].
    apply keeps_bind; [apply _ | | apply keeps_logs_show_logs].
    apply keeps_after_fetch; [apply _ |].
    intros w0. split; [done|]. split; [|done]. intros key Hkey. simpl.
    by apply lookup_delete_ne. }
  specialize (Hf w1). unfold try_catch, bind in Hf.
  destruct (catch_res _ _) as [c w2|]; simpl in *; [|done].
  by destruct Hf as (Hd & _ & Ha & Ht & _).
Qed.

(** X17. When the fetch of an action-log synchronization fails (network
    failure, or a response that is not a 2xx), the document is left
    exactly as it was: the list keeps the lines it showed, nothing tells
    the user of the failure, and the error goes to the console. *)
Theorem failed_logs_sync_shows_nothing server w tok env o w1 :
  session w = Some tok →
  env (send (logs_request server tok) w) = (o, w1) →
  failed o = true →
  let w2 := (complete (updateActionLogsForServer server w) env).2 in
  document w2 = document w1
  ∧ alerts w2 = alerts w1
  ∧ ∃ e, console_errors w2 = console_errors w1 ++
           [("Error updating action logs for " +:+ id server +:+ ":", e)].
Proof.
  intros Hs Henv Hfail.
  destruct (updateActionLogsForServer_session server w tok Hs) as (k & -> & Hk).
  rewrite (complete_Suspend _ _ _ _ _ Henv), Hk.
  destruct o as [|r]; simpl in *.
  - repeat split. by eexists.
  - destruct (status r =? 401); simpl.
    + repeat split. by eexists.
    + unfold show_logs. rewrite Hfail. simpl. repeat split. by eexists.
Qed.

(** X18. When the answer to an action-log synchronization is a 2xx whose
    JSON body is not an array (and has no [length] equal to 0), the
    list of the logs is emptied before the [TypeError] is thrown: the
    lines it showed are gone, nothing replaces them, and the error goes
    to the console. *)
Theorem malformed_logs_body_empties_the_list server w tok env r w1 logs el :
  session w = Some tok →
  env (send (logs_request server tok) w) = (Responded r, w1) →
  ok r = true →
  JSON_parse (body r) = Some logs →
  (∀ items, logs ≠ JArr items) →
  get_prop logs "length" ≠ Normal (JNum 0) →
  document w1 !! ("action-logs-" +:+ id server) = Some el →
  let '(c, w2) := complete (updateActionLogsForServer server w) env in
  c = Normal ()
  ∧ document w2 !! ("action-logs-" +:+ id server) = Some (with_children [] el)
  ∧ console_errors w2 = console_errors w1 ++
      [("Error updating action logs for " +:+ id server +:+ ":", TypeErr)].
Proof.
  intros Hs Henv Hok Hbody Hnarr Hlen Hel.
  destruct (updateActionLogsForServer_session server w tok Hs) as (k & -> & Hk).
  rewrite (complete_Suspend _ _ _ _ _ Henv), Hk.
  unfold after_fetch. rewrite (ok_not_401 r Hok). cbn [bind_res].
  unfold show_logs. rewrite Hok. cbn [negb].
  unfold bind at 1, Response_json. rewrite Hbody. cbn [ret bind_res].
  unfold bind at 1. rewrite (update_element_mounted _ _ _ el Hel). cbn [bind_res].
  unfold bind at 1, lift.
  assert (Hdone : ∀ W : World,
            document W !! ("action-logs-" +:+ id server) = Some (with_children [] el) →
            console_errors W = console_errors w1 →
            let '(c, w2) := complete (catch_res (Done (Throw TypeErr) W)
                                        (on_logs_error server)) env in
            c = Normal ()
            ∧ document w2 !! ("action-logs-" +:+ id server) = Some (with_children [] el)
            ∧ console_errors w2 = console_errors w1 ++
                [("Error updating action logs for " +:+ id server +:+ ":", TypeErr)]).
  { intros W HW Hcon. simpl. by rewrite HW, Hcon. }
  destruct logs as [| |b|n|s|items|fields]; cbn [get_prop bind_res forEach throw] in *;
    try (apply Hdone; [simpl; apply lookup_insert_eq | done]).
  - rewrite String.eqb_refl in *.
    destruct (Z.of_nat (String.length s)) eqn:Hn; [done| |];
      apply Hdone; (simpl; apply lookup_insert_eq) || done.
  - by destruct (Hnarr items).
  - destruct (default JUndefined (assoc "length" fields)) as [| | |n| | |];
      try (apply Hdone; [simpl; apply lookup_insert_eq | done]).
    destruct n; [done| |]; apply Hdone; (simpl; apply lookup_insert_eq) || done.
Qed.

(** *** The refresh button and the first load *)

Lemma logs_prefix server w tok :
  session w = Some tok →
  waiting (updateActionLogsForServer server w) = true ∧
  world_of (updateActionLogsForServer server w) = send (logs_request server tok) w.
Proof.
  intros Hs.
  by destruct (updateActionLogsForServer_session server w tok Hs) as (k & -> & _).
Qed.

(** X19. A click on the refresh button of a card, with a session token
    stored, always asks for the action logs, and asks for the status
    first, whatever the age of the record, unless the record is not
    JSON: then the status synchronization throws at once, no status
    request leaves, and the click leaves the record as it is. *)
Theorem refresh_click_requests server w tok :
  session w = Some tok →
  let '(first, second) := refresh_click server w in
  waiting second = true
  ∧ localStorage (world_of second) = localStorage w
  ∧ match cached server w with
    | Normal _ =>
        waiting first = true ∧
        requests (world_of second)
          = requests w ++ [status_request server tok; logs_request server tok]
    | Throw e =>
        first = Done (Throw e) w ∧
        requests (world_of second) = requests w ++ [logs_request server tok]
    end.
Proof.
  intros Hs. unfold refresh_click.
  pose proof (updateDashboardForServer_cases server true w) as Hc.
  destruct (cached server w) as [v|e] eqn:Hv.
  - destruct (forced_sync_sends server w tok v Hs Hv) as [Hw Hsent].
    destruct (logs_prefix server (world_of (updateDashboardForServer server true w)) tok)
      as [Hw2 Hsent2]; [by rewrite Hsent|].
    rewrite Hw2, Hsent2, Hsent. simpl. by rewrite <- app_assoc.
  - rewrite Hc. simpl.
    destruct (logs_prefix server w tok Hs) as [Hw2 Hsent2].
    by rewrite Hw2, Hsent2.
Qed.

End Script.

(** ** The script on the concrete page *)

Abbreviation sync_status :=
  (updateDashboardForServer RefHost.JSON_parse RefHost.JSON_stringify
     RefHost.StringToNumber).
Abbreviation sync_logs :=
  (updateActionLogsForServer RefHost.JSON_parse RefHost.Date_toLocaleString).
Abbreviation act := (handleVmAction RefHost.JSON_parse).

(** [fetchWithAuth_unauthorized_or_verbatim] on the concrete page: the
    list of servers is asked for and the backend answers 401. *)
Lemma fetchWithAuth_unauthorized_witness :
  session Demo.page = Some "tok" ∧
  let end_ := complete (fetchWithAuth "/api/v1/servers" no_options Demo.page)
                (quiet (Responded Demo.unauthorized) 10) in
  end_.1 = Throw (Err "Unauthorized") ∧ session end_.2 = None ∧
  location_href end_.2 = "/static/login.html".
Proof.
  split; [reflexivity|].
  pose proof (fetchWithAuth_unauthorized_or_verbatim
                "/api/v1/servers" no_options Demo.page "tok"
                (quiet (Responded Demo.unauthorized) 10) Demo.unauthorized _
                eq_refl eq_refl) as H.
  cbv zeta. destruct (complete _ _) as [c w2].
  destruct H as [H _]. destruct (H eq_refl) as (-> & Hs & Hl & _).
  simpl. rewrite Hs, Hl. done.
Defined.

(** [successful_action_schedules_one_resync] on the concrete page: the
    start of [alpha] is confirmed and accepted after 10 ms. *)
Lemma successful_action_witness :
  session Demo.page = Some "tok" ∧ ok Demo.accepted = true ∧
  timers (complete (act Demo.alpha "start" true Demo.page)
            (quiet (Responded Demo.accepted) 10)).2
  = [{| due := 3010; callback := DelayedResync Demo.alpha |}].
Proof.
  split; [reflexivity|]. split; [reflexivity|].
  exact (proj1 (successful_action_schedules_one_resync
                  RefHost.JSON_parse RefHost.JSON_stringify
                  RefHost.StringToNumber RefHost.Date_toLocaleString
                  Demo.alpha "start" Demo.page "tok"
                  (quiet (Responded Demo.accepted) 10) Demo.accepted _
                  eq_refl eq_refl eq_refl)).
Defined.

(** [failed_action_reports_detail] on the concrete page: the backend
    rejects the start of [alpha] and says why. *)
Lemma failed_action_witness :
  session Demo.page = Some "tok" ∧ ok Demo.rejected = false ∧
  status Demo.rejected ≠ 401 ∧
  let end_ := (complete (act Demo.alpha "start" true Demo.page)
                 (quiet (Responded Demo.rejected) 10)).2 in
  timers end_ = [] ∧ alerts end_ = ["Error: Failed to start VM"].
Proof.
  split; [reflexivity|]. split; [reflexivity|]. split; [discriminate|].
  destruct (failed_action_reports_detail RefHost.JSON_parse
              Demo.alpha "start" Demo.page "tok"
              (quiet (Responded Demo.rejected) 10) Demo.rejected _
              eq_refl eq_refl eq_refl ltac:(discriminate)) as [Ht Ha].
  split; [exact Ht|].
  exact (Ha (JObj [("detail", JStr "Failed to start VM")])
            (JStr "Failed to start VM") eq_refl eq_refl).
Defined.

(** [corrupt_cache_record_throws] on the page whose record of [alpha] is
    not JSON. *)
Lemma corrupt_cache_record_witness :
  localStorage Demo.page_with_corrupt_cache !! cacheKey Demo.alpha = Some "{oops" ∧
  RefHost.JSON_parse "{oops" = None ∧
  sync_status Demo.alpha false Demo.page_with_corrupt_cache
  = Done (Throw SyntaxErr) Demo.page_with_corrupt_cache.
Proof.
  split; [reflexivity|]. split; [reflexivity|].
  exact (corrupt_cache_record_throws RefHost.JSON_parse RefHost.JSON_stringify
           RefHost.StringToNumber Demo.alpha false Demo.page_with_corrupt_cache
           "{oops" eq_refl eq_refl).
Defined.

(** [forced_sync_fetches_when_session] on the page whose record of [beta]
    is fresh. *)
Lemma forced_sync_witness :
  session Demo.page_with_cache = Some "tok" ∧
  cached RefHost.JSON_parse Demo.beta Demo.page_with_cache
    = Normal (cache_record Demo.vm_status 0) ∧
  cache_hit RefHost.StringToNumber false (cache_record Demo.vm_status 0)
    (clock Demo.page_with_cache) = true ∧
  waiting (sync_status Demo.beta true Demo.page_with_cache) = true ∧
  requests (world_of (sync_status Demo.beta true Demo.page_with_cache))
  = [{| url := "/api/v1/servers/b/status"; method := "GET";
        headers := [("Authorization", "Bearer tok")] |}].
Proof.
  split; [reflexivity|]. split; [reflexivity|]. split; [reflexivity|].
  destruct (forced_sync_fetches_when_session RefHost.JSON_parse
              RefHost.JSON_stringify RefHost.StringToNumber
              Demo.beta Demo.page_with_cache "tok"
              (cache_record Demo.vm_status 0) eq_refl eq_refl) as [Hw Hreq].
  split; [exact Hw|]. rewrite Hreq. reflexivity.
Defined.


(** [fresh_record_is_served_without_network] on the concrete page: the
    status of [alpha] is fetched at time 0 and asked for again 10 s
    later. *)
Lemma fresh_record_witness :
  waiting (sync_status Demo.alpha false Demo.page) = true ∧
  ok Demo.status_ok = true ∧
  RefHost.JSON_parse (body Demo.status_ok) = Some Demo.vm_status ∧
  let first := complete (sync_status Demo.alpha false Demo.page)
                 (quiet (Responded Demo.status_ok) 10000) in
  first.1 = Normal () ∧ clock first.2 = 10000 ∧
  sync_status Demo.alpha false first.2
  = renderDashboardData Demo.alpha Demo.vm_status first.2.
Proof.
  assert (Hwait : waiting (sync_status Demo.alpha false Demo.page) = true)
    by (vm_compute; reflexivity).
  assert (Hbody : RefHost.JSON_parse (body Demo.status_ok) = Some Demo.vm_status)
    by (vm_compute; reflexivity).
  assert (Hround :
    RefHost.JSON_parse
      (RefHost.JSON_stringify (cache_record Demo.vm_status (clock Demo.page)))
    = Some (cache_record Demo.vm_status (clock Demo.page)))
    by (vm_compute; reflexivity).
  assert (Hrender : ∃ wr,
    renderDashboardData Demo.alpha Demo.vm_status
      (set_clock (λ t, t + 10000)
         (send (status_request Demo.alpha "tok") Demo.page))
    = Done (Normal ()) wr)
    by (eexists; vm_compute; reflexivity).
  split; [exact Hwait|]. split; [reflexivity|]. split; [exact Hbody|].
  pose proof (fresh_record_is_served_without_network RefHost.JSON_parse
                RefHost.JSON_stringify RefHost.StringToNumber
                Demo.alpha false Demo.page
                (quiet (Responded Demo.status_ok) 10000) Demo.status_ok _
                Demo.vm_status Hwait eq_refl eq_refl Hbody Hrender Hround) as H.
  cbv zeta.
  assert (Hclock : clock (complete (sync_status Demo.alpha false Demo.page)
                            (quiet (Responded Demo.status_ok) 10000)).2 = 10000)
    by (vm_compute; reflexivity).
  destruct (complete _ _) as [c w2].
  destruct H as (-> & _ & Hsecond). cbn [fst snd] in *.
  split; [reflexivity|]. split; [exact Hclock|].
  assert (Hage : clock w2 - clock Demo.page < 3600000)
    by (rewrite Hclock; reflexivity).
  exact (proj1 (Hsecond w2 eq_refl Hage)).
Defined.


(** ** Where the code departs from the specification *)

(** C1, with [t0] the time at which the first call completes. The status
    of [alpha] is asked for at time 0 and the answer takes 10 s: the call
    completes at [t0] = 10000 and the record it stores carries the
    timestamp 0, the time read before the request left.  At [t1] =
    3605000, less than an hour after [t0], a non-forced call for the same
    server goes to the network again. *)
Lemma slow_answer_shortens_freshness :
  let first := complete (sync_status Demo.alpha false Demo.page)
                 (quiet (Responded Demo.status_ok) 10000) in
  first.1 = Normal () ∧
  clock first.2 = 10000 ∧
  localStorage first.2 !! "dashboardData-a"
    = Some (RefHost.JSON_stringify (cache_record Demo.vm_status 0)) ∧
  let later := set_clock (λ _, 3605000) first.2 in
  clock later - clock first.2 < 3600000 ∧
  waiting (sync_status Demo.alpha false later) = true ∧
  requests (world_of (sync_status Demo.alpha false later))
    = requests later ++ [status_request Demo.alpha "tok"].
Proof. vm_compute. repeat split. Qed.


(** C7. A proxy answers the start of [alpha] with a 502 whose body is not
    JSON: [response.json()] rejects, the [catch] block logs the error and
    the user is shown no message at all.  And a failure whose [detail] is
    present but empty is reported with the generic message. *)
Lemma failure_without_readable_detail :
  ok Demo.bad_gateway = false ∧ status Demo.bad_gateway ≠ 401 ∧
  (let end_ := (complete (act Demo.alpha "start" true Demo.page)
                  (quiet (Responded Demo.bad_gateway) 10)).2 in
   alerts end_ = [] ∧
   console_errors end_ = [("Error during start for a:", SyntaxErr)]) ∧
  RefHost.JSON_parse (body Demo.empty_detail)
    = Some (JObj [("detail", JStr EmptyString)]) ∧
  alerts (complete (act Demo.alpha "start" true Demo.page)
            (quiet (Responded Demo.empty_detail) 10)).2
    = ["Error: Failed to perform action"].
Proof. vm_compute. repeat split. discriminate. Qed.

(** C8. On the page without a session token, an action-log
    synchronization ends without having sent a request: the transport
    throws before [fetch]. *)
Lemma action_logs_without_session_send_nothing :
  session Demo.page_without_session = None ∧
  waiting (sync_logs Demo.alpha Demo.page_without_session) = false ∧
  requests (world_of (sync_logs Demo.alpha Demo.page_without_session)) = [] ∧
  console_errors (world_of (sync_logs Demo.alpha Demo.page_without_session))
    = [("Error updating action logs for a:",
        Err "No token found, redirecting to login.")].
Proof. vm_compute. repeat split. Qed.

(** C9. Two states of the cache and of the page in which a forced status
    synchronization sends nothing: the record of the server is not JSON
    (the call throws at [JSON.parse], before the transport), and the
    session token is gone while the record is fresh (the transport throws
    before [fetch]). *)
Lemma forced_sync_without_request :
  (session Demo.page_with_corrupt_cache = Some "tok" ∧
   sync_status Demo.alpha true Demo.page_with_corrupt_cache
     = Done (Throw SyntaxErr) Demo.page_with_corrupt_cache) ∧
  (session Demo.page_without_session = None ∧
   cached RefHost.JSON_parse Demo.beta Demo.page_without_session
     = Normal (cache_record Demo.vm_status 0) ∧
   waiting (sync_status Demo.beta true Demo.page_without_session) = false ∧
   requests (world_of (sync_status Demo.beta true Demo.page_without_session)) = []).
Proof. vm_compute. repeat split. Qed.

(** ** The rest of the script on the concrete page *)

Lemma page_cards_mounted server w :
  server ∈ Demo.servers →
  document w = document Demo.page →
  card_mounted server w.
Proof.
  intros Hin Hdoc key Hkey. rewrite Hdoc. unfold Demo.servers in Hin.
  unfold status_ids in Hkey. set_unfold.
  destruct Hin as [-> | [-> | []]];
    destruct Hkey as [-> | [-> | [-> | [-> | []]]]];
    vm_compute; eauto.
Qed.

(** [status_sync_leaves_other_servers] on the concrete page: the status
    of [alpha] is asked for, the card of [beta] is looked at. *)
Lemma other_servers_witness :
  id Demo.beta ≠ id Demo.alpha ∧
  document (world_of (sync_status Demo.alpha false Demo.page)) !! "traffic-details-b"
  = document Demo.page !! "traffic-details-b".
Proof.
  split; [discriminate|].
  apply (status_sync_leaves_other_servers RefHost.JSON_parse
           RefHost.JSON_stringify RefHost.StringToNumber
           RefHost.Date_toLocaleString Demo.alpha Demo.beta false Demo.page);
    [discriminate|].
  simpl. set_solver.
Defined.

(** [renderDashboardData_succeeds_iff_renderable] on the concrete page. *)
Lemma render_outcome_witness :
  card_mounted Demo.alpha Demo.page ∧
  renderable Demo.vm_status = true ∧
  ∃ w', renderDashboardData Demo.alpha Demo.vm_status Demo.page = Done (Normal ()) w'.
Proof.
  assert (Hm : card_mounted Demo.alpha Demo.page).
  { apply page_cards_mounted; [set_solver | done]. }
  split; [exact Hm|]. split; [reflexivity|].
  destruct (renderDashboardData_succeeds_iff_renderable RefHost.JSON_parse
              RefHost.JSON_stringify RefHost.StringToNumber
              RefHost.Date_toLocaleString Demo.alpha Demo.vm_status Demo.page Hm)
    as (c & w' & Hrun & _ & Hc & _).
  exists w'. rewrite Hrun, (Hc eq_refl). reflexivity.
Defined.

(** [badge_shows_one_state] on the concrete page: the status is
    [RUNNING]. *)
Lemma badge_witness :
  get_prop Demo.vm_status "status" = Normal (JStr "RUNNING") ∧
  document Demo.page !! "vm-name-a" = Some (blank "Loading..." []) ∧
  document Demo.page !! "vm-status-a" = Some (blank "Loading..." ["status-badge"]) ∧
  settles (renderDashboardData Demo.alpha Demo.vm_status Demo.page)
    (λ _ w', ∃ badge,
       document w' !! "vm-status-a" = Some badge ∧
       textContent badge = "RUNNING" ∧
       classList badge = ["status-badge"; "running"]).
Proof.
  assert (H1 : document Demo.page !! "vm-name-a" = Some (blank "Loading..." []))
    by (vm_compute; reflexivity).
  assert (H2 : document Demo.page !! "vm-status-a"
               = Some (blank "Loading..." ["status-badge"]))
    by (vm_compute; reflexivity).
  split; [reflexivity|]. split; [exact H1|]. split; [exact H2|].
  pose proof (badge_shows_one_state RefHost.JSON_parse RefHost.JSON_stringify
                RefHost.StringToNumber RefHost.Date_toLocaleString
                Demo.alpha Demo.vm_status "RUNNING" Demo.page _ _
                eq_refl H1 H2) as H.
  destruct (renderDashboardData _ _ _) as [c w'|]; [|done].
  destruct H as (badge & cls & Hb & Ht & Hc & Hrun & _).
  exists badge. split; [exact Hb|]. split; [exact Ht|].
  rewrite Hc, (proj2 Hrun eq_refl). reflexivity.
Defined.

(** [status_sync_stores_or_reports] on the concrete page: the status of
    [alpha] is fetched and the backend answers after 10 ms. *)
Lemma status_sync_outcome_witness :
  waiting (sync_status Demo.alpha false Demo.page) = true ∧
  let end_ := (complete (sync_status Demo.alpha false Demo.page)
                 (quiet (Responded Demo.status_ok) 10)).2 in
  (∃ data, localStorage end_ !! "dashboardData-a"
           = Some (RefHost.JSON_stringify (cache_record data 0)))
  ∨ localStorage end_ !! "dashboardData-a" = None.
Proof.
  assert (Hwait : waiting (sync_status Demo.alpha false Demo.page) = true)
    by (vm_compute; reflexivity).
  split; [exact Hwait|].
  pose proof (status_sync_stores_or_reports RefHost.JSON_parse
                RefHost.JSON_stringify RefHost.StringToNumber
                RefHost.Date_toLocaleString Demo.alpha false Demo.page
                (quiet (Responded Demo.status_ok) 10) _ _ Hwait eq_refl) as H.
  cbv zeta. destruct (complete _ _) as [c w2]. cbn [snd].
  destruct H as [(r & data & _ & _ & _ & _ & _ & Hls & _) | (Hls & _)].
  - left. exists data. exact Hls.
  - right. change "dashboardData-a" with (cacheKey Demo.alpha).
    rewrite Hls. vm_compute. reflexivity.
Defined.

(** [freshness_boundary] on the page whose record of [beta] was written
    4000 s ago. *)
Lemma freshness_witness :
  session Demo.page_with_stale_cache = Some "tok" ∧
  cached RefHost.JSON_parse Demo.beta Demo.page_with_stale_cache
    = Normal (cache_record Demo.vm_status 0) ∧
  waiting (sync_status Demo.beta false Demo.page_with_stale_cache) = true.
Proof.
  assert (Hc : cached RefHost.JSON_parse Demo.beta Demo.page_with_stale_cache
               = Normal (cache_record Demo.vm_status 0))
    by (vm_compute; reflexivity).
  split; [reflexivity|]. split; [exact Hc|].
  rewrite (freshness_boundary RefHost.JSON_parse RefHost.JSON_stringify
             RefHost.StringToNumber Demo.beta Demo.page_with_stale_cache
             "tok" Demo.vm_status 0 eq_refl Hc).
  reflexivity.
Defined.

(** [unrenderable_fresh_record_rejects] on the page whose record of
    [alpha] has no traffic figures. *)
Lemma unrenderable_record_witness :
  card_mounted Demo.alpha Demo.page_with_partial_cache ∧
  cached RefHost.JSON_parse Demo.alpha Demo.page_with_partial_cache
    = Normal (cache_record Demo.vm_status_without_traffic 0) ∧
  renderable Demo.vm_status_without_traffic = false ∧
  ∃ w', sync_status Demo.alpha false Demo.page_with_partial_cache
        = Done (Throw TypeErr) w'
      ∧ requests w' = [] ∧ console_errors w' = [].
Proof.
  assert (Hm : card_mounted Demo.alpha Demo.page_with_partial_cache).
  { apply page_cards_mounted; [set_solver | done]. }
  assert (Hc : cached RefHost.JSON_parse Demo.alpha Demo.page_with_partial_cache
               = Normal (cache_record Demo.vm_status_without_traffic 0))
    by (vm_compute; reflexivity).
  split; [exact Hm|]. split; [exact Hc|]. split; [reflexivity|].
  destruct (unrenderable_fresh_record_rejects RefHost.JSON_parse
              RefHost.JSON_stringify RefHost.StringToNumber
              RefHost.Date_toLocaleString Demo.alpha
              Demo.page_with_partial_cache
              (cache_record Demo.vm_status_without_traffic 0)
              Demo.vm_status_without_traffic Hm Hc eq_refl eq_refl eq_refl)
    as (w' & Hrun & _ & Hreq & Hcon & _).
  exists w'. split; [exact Hrun|]. split; [exact Hreq | exact Hcon].
Defined.

(** [action_logs_are_listed_in_order] on the concrete page: the log of
    [alpha] has two entries. *)
Lemma action_logs_witness :
  session Demo.page = Some "tok" ∧ ok Demo.logs_two = true ∧
  RefHost.JSON_parse (body Demo.logs_two) = Some (JArr Demo.log_entries) ∧
  Forall defined Demo.log_entries ∧
  children <$> document (complete (sync_logs Demo.alpha Demo.page)
                           (quiet (Responded Demo.logs_two) 10)).2
               !! "action-logs-a"
  = Some ["[1000] START: manual"; "[2000] SHUTDOWN: "].
Proof.
  assert (Hbody : RefHost.JSON_parse (body Demo.logs_two)
                  = Some (JArr Demo.log_entries))
    by (vm_compute; reflexivity).
  assert (Hdef : Forall defined Demo.log_entries).
  { unfold Demo.log_entries. repeat (constructor; [split; discriminate|]).
    constructor. }
  assert (Hel : document (quiet (Responded Demo.logs_two) 10
                            (send (logs_request Demo.alpha "tok") Demo.page)).2
                  !! ("action-logs-" +:+ id Demo.alpha)
                = Some (with_children ["Loading logs..."] (blank EmptyString [])))
    by (vm_compute; reflexivity).
  split; [reflexivity|]. split; [reflexivity|]. split; [exact Hbody|].
  split; [exact Hdef|].
  pose proof (action_logs_are_listed_in_order RefHost.JSON_parse
                RefHost.Date_toLocaleString Demo.alpha Demo.page "tok"
                (quiet (Responded Demo.logs_two) 10) Demo.logs_two _
                Demo.log_entries _ eq_refl eq_refl eq_refl Hbody Hdef Hel) as H.
  destruct (complete _ _) as [c w2]. destruct H as (_ & Hlist & _).
  cbn [snd]. change "action-logs-a" with ("action-logs-" +:+ id Demo.alpha).
  rewrite Hlist. reflexivity.
Defined.

(** [action_transport_failure_is_silent] on the concrete page: the
    request to start [alpha] does not reach the backend. *)
Lemma action_transport_failure_witness :
  session Demo.page = Some "tok" ∧
  let end_ := (complete (act Demo.alpha "start" true Demo.page)
                 (quiet NetworkFailure 10)).2 in
  alerts end_ = [] ∧ timers end_ = [] ∧ document end_ = document Demo.page.
Proof.
  split; [reflexivity|].
  destruct (action_transport_failure_is_silent RefHost.JSON_parse
              Demo.alpha "start" Demo.page "tok" (quiet NetworkFailure 10)
              NetworkFailure _ eq_refl eq_refl (or_introl eq_refl))
    as (Ha & Ht & Hd & _).
  cbv zeta. rewrite Ha, Ht, Hd. done.
Defined.

(** [action_touches_neither_document_nor_cache] on the page whose cache
    holds a record of [beta]: the start of [beta] is accepted. *)
Lemma action_leaves_cache_witness :
  session Demo.page_with_cache = Some "tok" ∧
  let end_ := (complete (act Demo.beta "start" true Demo.page_with_cache)
                 (quiet (Responded Demo.accepted) 10)).2 in
  document end_ = document Demo.page_with_cache ∧
  localStorage end_ !! "dashboardData-b"
  = localStorage Demo.page_with_cache !! "dashboardData-b".
Proof.
  split; [reflexivity|].
  destruct (action_touches_neither_document_nor_cache RefHost.JSON_parse
              Demo.beta "start" Demo.page_with_cache "tok"
              (quiet (Responded Demo.accepted) 10) (Responded Demo.accepted) _
              eq_refl eq_refl)
    as (Hd & Hls & _).
  cbv zeta. rewrite Hd. split; [done|]. rewrite Hls; [done | discriminate].
Defined.

(** [request_carries_the_stored_token] for a request with a content
    type. *)
Lemma request_token_witness :
  NoDup (opt_headers Demo.json_post).*1 ∧
  ∀ v, ("Authorization", v) ∈ headers (auth_request "/api/v1/servers" Demo.json_post "tok")
       ↔ v = "Bearer tok".
Proof.
  assert (Hnd : NoDup (opt_headers Demo.json_post).*1).
  { simpl. apply NoDup_singleton. }
  split; [exact Hnd|].
  destruct (request_carries_the_stored_token RefHost.JSON_parse
              RefHost.StringToNumber "/api/v1/servers" Demo.json_post "tok" Hnd)
    as (_ & _ & Hauth & _).
  exact Hauth.
Defined.

(** [logs_refresh_sends_one_request_per_server] on the concrete page. *)
Lemma logs_refresh_witness :
  session Demo.page = Some "tok" ∧
  requests (logs_refresh RefHost.JSON_parse RefHost.Date_toLocaleString
              Demo.servers Demo.page).2
  = [logs_request Demo.alpha "tok"; logs_request Demo.beta "tok"].
Proof.
  split; [reflexivity|].
  pose proof (logs_refresh_sends_one_request_per_server RefHost.JSON_parse
                RefHost.Date_toLocaleString Demo.servers Demo.page "tok"
                eq_refl) as H.
  destruct (logs_refresh _ _ _ _) as [started w']. destruct H as [Hreq _].
  cbn [snd]. rewrite Hreq. reflexivity.
Defined.

(** [hourly_refresh_fetches_the_stale_records] on the page whose cache
    holds a fresh record of [beta] and none of [alpha]. *)
Lemma hourly_refresh_witness :
  session Demo.page_with_cache = Some "tok" ∧
  requests (hourly_refresh RefHost.JSON_parse RefHost.JSON_stringify
              RefHost.StringToNumber Demo.servers Demo.page_with_cache).2
  = [status_request Demo.alpha "tok"].
Proof.
  split; [reflexivity|].
  assert (Hstale : List.filter
                     (λ server, stale RefHost.JSON_parse RefHost.StringToNumber
                                  server Demo.page_with_cache) Demo.servers
                   = [Demo.alpha])
    by (vm_compute; reflexivity).
  pose proof (hourly_refresh_fetches_the_stale_records RefHost.JSON_parse
                RefHost.JSON_stringify RefHost.StringToNumber
                Demo.servers Demo.page_with_cache "tok" eq_refl) as H.
  destruct (hourly_refresh _ _ _ _ _) as [started w']. destruct H as [Hreq _].
  cbn [snd]. rewrite Hreq, Hstale. reflexivity.
Defined.

(** [logs_sync_writes_only_its_list] on the concrete page. *)
Lemma logs_sync_frame_witness :
  session Demo.page = Some "tok" ∧
  waiting (sync_logs Demo.alpha Demo.page) = true.
Proof.
  split; [reflexivity|].
  destruct (logs_sync_writes_only_its_list RefHost.JSON_parse
              RefHost.Date_toLocaleString Demo.alpha Demo.page "tok" eq_refl)
    as (k & Hrun & _).
  rewrite Hrun. reflexivity.
Defined.

(** [failed_logs_sync_shows_nothing] on the concrete page: the proxy
    answers 502. *)
Lemma failed_logs_sync_witness :
  session Demo.page = Some "tok" ∧
  failed (Responded Demo.bad_gateway) = true ∧
  document (complete (sync_logs Demo.alpha Demo.page)
              (quiet (Responded Demo.bad_gateway) 10)).2
  = document Demo.page.
Proof.
  split; [reflexivity|]. split; [reflexivity|].
  destruct (failed_logs_sync_shows_nothing RefHost.JSON_parse
              RefHost.Date_toLocaleString Demo.alpha Demo.page "tok"
              (quiet (Responded Demo.bad_gateway) 10)
              (Responded Demo.bad_gateway) _ eq_refl eq_refl eq_refl)
    as (Hd & _).
  rewrite Hd. reflexivity.
Defined.

(** [malformed_logs_body_empties_the_list] on the concrete page: the
    body of the answer is an object. *)
Lemma malformed_logs_witness :
  session Demo.page = Some "tok" ∧ ok Demo.logs_not_a_list = true ∧
  RefHost.JSON_parse (body Demo.logs_not_a_list)
    = Some (JObj [("detail", JStr "no logs")]) ∧
  children <$> document (complete (sync_logs Demo.alpha Demo.page)
                           (quiet (Responded Demo.logs_not_a_list) 10)).2
               !! "action-logs-a"
  = Some [].
Proof.
  assert (Hbody : RefHost.JSON_parse (body Demo.logs_not_a_list)
                  = Some (JObj [("detail", JStr "no logs")]))
    by (vm_compute; reflexivity).
  assert (Hel : document (quiet (Responded Demo.logs_not_a_list) 10
                            (send (logs_request Demo.alpha "tok") Demo.page)).2
                  !! ("action-logs-" +:+ id Demo.alpha)
                = Some (with_children ["Loading logs..."] (blank EmptyString [])))
    by (vm_compute; reflexivity).
  split; [reflexivity|]. split; [reflexivity|]. split; [exact Hbody|].
  pose proof (malformed_logs_body_empties_the_list RefHost.JSON_parse
                RefHost.Date_toLocaleString Demo.alpha Demo.page "tok"
                (quiet (Responded Demo.logs_not_a_list) 10)
                Demo.logs_not_a_list _ (JObj [("detail", JStr "no logs")]) _
                eq_refl eq_refl eq_refl Hbody
                ltac:(discriminate) ltac:(discriminate) Hel) as H.
  destruct (complete _ _) as [c w2]. destruct H as (_ & Hlist & _).
  cbn [snd]. change "action-logs-a" with ("action-logs-" +:+ id Demo.alpha).
  rewrite Hlist. reflexivity.
Defined.

(** [refresh_click_requests] on the page whose record of [alpha] is not
    JSON: the click asks for the logs only. *)
Lemma refresh_click_witness :
  session Demo.page_with_corrupt_cache = Some "tok" ∧
  requests (world_of (refresh_click RefHost.JSON_parse RefHost.JSON_stringify
                        RefHost.StringToNumber RefHost.Date_toLocaleString
                        Demo.alpha Demo.page_with_corrupt_cache).2)
  = [logs_request Demo.alpha "tok"].
Proof.
  split; [reflexivity|].
  assert (Hc : cached RefHost.JSON_parse Demo.alpha Demo.page_with_corrupt_cache
               = Throw SyntaxErr)
    by (vm_compute; reflexivity).
  pose proof (refresh_click_requests RefHost.JSON_parse RefHost.JSON_stringify
                RefHost.StringToNumber RefHost.Date_toLocaleString
                Demo.alpha Demo.page_with_corrupt_cache "tok" eq_refl) as H.
  destruct (refresh_click _ _ _ _ _ _) as [first second].
  rewrite Hc in H. destruct H as (_ & _ & _ & Hreq).
  cbn [snd]. rewrite Hreq. reflexivity.
Defined.

